(** * Real-time connection registry and event fan-out hub

    A shallow embedding of [backend/src/websocket/connection_manager.py]
    (class [ConnectionManager]) and of the notification hand-off in
    [backend/src/services/delivery_service.py]
    ([DeliveryService.update_location]).

    Python's mutable manager object becomes a record threaded through a
    small state-and-exception monad.  State changes made before an
    exception is raised persist, as they do in Python.  Everything the
    manager cannot decide by itself (whether a socket accepts the
    handshake, whether a send succeeds, which event loop is running) is
    read from an environment record, so every definition is executable. *)

From Stdlib Require Import ZArith String List.
From Stdlib Require Import Floats.PrimFloat.
From stdpp Require Import gmap strings list fin_maps pretty.

Set Warnings "-inexact-float,-register-all".
Local Open Scope Z_scope.
Local Open Scope string_scope.

(** ** Data model *)

(** [models/user.py]: [class UserRole(str, enum.Enum)]. *)
Inductive UserRole := ADMIN | COURIER | SENDER | RECIPIENT.

#[global] Instance UserRole_eq_dec : EqDecision UserRole.
Proof. solve_decision. Defined.

(** [role.value] *)
Definition role_value (r : UserRole) : string :=
  match r with
  | ADMIN => "admin"
  | COURIER => "courier"
  | SENDER => "sender"
  | RECIPIENT => "recipient"
  end.

(** The columns of [models/user.py]'s [User] that the manager reads. *)
Record User := {
  user_id : Z;
  user_email : string;
  user_role : UserRole
}.

(** A [fastapi.WebSocket] object, known by its identity. *)
Inductive WebSocket := Socket (handle : nat).

#[global] Instance WebSocket_eq_dec : EqDecision WebSocket.
Proof. solve_decision. Defined.

(** An [asyncio.AbstractEventLoop] object, known by its identity. *)
Inductive EventLoop := Loop (handle : nat).

#[global] Instance EventLoop_eq_dec : EqDecision EventLoop.
Proof. solve_decision. Defined.

(** Instances of Python's [Exception] that the modelled code can meet.
    [BaseException]s outside [Exception] (task cancellation, interpreter
    exit) are not part of the model. *)
Inductive PyException :=
| WebSocketDisconnect
| RuntimeError
| OSError
| KeyError (key : string).

(** JSON values carried by a message.  Coordinates are binary64 floats,
    only ever passed through. *)
Inductive JValue :=
| JNone
| JInt (z : Z)
| JFloat (f : float)
| JStr (s : string)
| JDict (d : list (string * JValue)).

(** [Dict[str, Any]] built by a dict display: keys in insertion order. *)
Definition Message := list (string * JValue).

(** [message[key]], [None] standing for a missing key. *)
Fixpoint dict_get (key : string) (message : Message) : option JValue :=
  match message with
  | [] => None
  | (k, v) :: rest => if decide (k = key) then Some v else dict_get key rest
  end.

(** [str(n)] for an [int], as an f-string formats it. *)
Definition str_int (n : Z) : string := pretty n.

(** [self.connections_by_role]: a dict whose keys are the four roles,
    fixed by [__init__] and never added to or removed from, so indexing
    it by a [UserRole] is total. *)
Definition RoleIndex := UserRole -> gset Z.

(** The attributes of [ConnectionManager] set up by [__init__]. *)
Record ConnectionManager := {
  active_connections : gmap Z WebSocket;
  connections_by_role : RoleIndex;
  package_subscriptions : gmap Z (gset Z);
  delivery_subscriptions : gmap Z (gset Z);
  loop : option EventLoop
}.

(** [ConnectionManager.__init__] *)
Definition init : ConnectionManager := {|
  active_connections := ∅;
  connections_by_role := fun _ => ∅;
  package_subscriptions := ∅;
  delivery_subscriptions := ∅;
  loop := None
|}.

Definition set_active_connections (a : gmap Z WebSocket) (m : ConnectionManager) :=
  {| active_connections := a;
     connections_by_role := connections_by_role m;
     package_subscriptions := package_subscriptions m;
     delivery_subscriptions := delivery_subscriptions m;
     loop := loop m |}.

Definition set_connections_by_role (r : RoleIndex) (m : ConnectionManager) :=
  {| active_connections := active_connections m;
     connections_by_role := r;
     package_subscriptions := package_subscriptions m;
     delivery_subscriptions := delivery_subscriptions m;
     loop := loop m |}.

Definition set_package_subscriptions (p : gmap Z (gset Z)) (m : ConnectionManager) :=
  {| active_connections := active_connections m;
     connections_by_role := connections_by_role m;
     package_subscriptions := p;
     delivery_subscriptions := delivery_subscriptions m;
     loop := loop m |}.

Definition set_delivery_subscriptions (d : gmap Z (gset Z)) (m : ConnectionManager) :=
  {| active_connections := active_connections m;
     connections_by_role := connections_by_role m;
     package_subscriptions := package_subscriptions m;
     delivery_subscriptions := d;
     loop := loop m |}.

Definition set_loop (l : option EventLoop) (m : ConnectionManager) :=
  {| active_connections := active_connections m;
     connections_by_role := connections_by_role m;
     package_subscriptions := package_subscriptions m;
     delivery_subscriptions := delivery_subscriptions m;
     loop := l |}.

(** ** Transport events

    What the sockets saw: every call of [websocket.accept] and of
    [websocket.send_text], with the [user_id] the send was made for. *)
Inductive Event :=
| Accepted (websocket : WebSocket)
| AcceptFailed (websocket : WebSocket) (e : PyException)
| Sent (user_id : Z) (websocket : WebSocket) (payload : Message)
| SendFailed (user_id : Z) (websocket : WebSocket) (payload : Message) (e : PyException).

(** The envelopes a given identity received, oldest first. *)
Fixpoint deliveries_to (u : Z) (t : list Event) : list Message :=
  match t with
  | [] => []
  | Sent u' _ payload :: rest =>
      if decide (u' = u) then payload :: deliveries_to u rest else deliveries_to u rest
  | _ :: rest => deliveries_to u rest
  end.

(** The number of [send_text] calls made for a given identity, whatever
    their outcome. *)
Fixpoint attempts_for (u : Z) (t : list Event) : nat :=
  match t with
  | [] => 0%nat
  | Sent u' _ _ :: rest | SendFailed u' _ _ _ :: rest =>
      if decide (u' = u) then S (attempts_for u rest) else attempts_for u rest
  | _ :: rest => attempts_for u rest
  end.

(** ** The monad: manager state, transport trace, Python exceptions *)

Record World := {
  mgr : ConnectionManager;
  trace : list Event
}.

Inductive Result (A : Type) :=
| Returned (a : A)
| Raised (e : PyException).
Arguments Returned {A} a.
Arguments Raised {A} e.

Definition M (A : Type) : Type := World -> Result A * World.

Definition ret {A} (a : A) : M A := fun w => (Returned a, w).

Definition bind {A B} (c : M A) (k : A -> M B) : M B :=
  fun w =>
    match c w with
    | (Returned a, w') => k a w'
    | (Raised e, w') => (Raised e, w')
    end.

(** [raise e] *)
Definition raise {A} (e : PyException) : M A := fun w => (Raised e, w).

(** [try: body except Exception as e: handler(e)] *)
Definition try_except {A} (body : M A) (handler : PyException -> M A) : M A :=
  fun w =>
    match body w with
    | (Raised e, w') => handler e w'
    | r => r
    end.

Definition get_mgr : M ConnectionManager := fun w => (Returned (mgr w), w).

Definition modify (f : ConnectionManager -> ConnectionManager) : M unit :=
  fun w => (Returned tt, {| mgr := f (mgr w); trace := trace w |}).

Definition emit (ev : Event) : M unit :=
  fun w => (Returned tt, {| mgr := mgr w; trace := trace w ++ [ev] |}).

Declare Scope py_scope.
Delimit Scope py_scope with py.
Notation "x <- c1 ;; c2" := (bind c1 (fun x => c2))
  (at level 100, c1 at next level, right associativity) : py_scope.
Notation "c1 ;; c2" := (bind c1 (fun _ => c2))
  (at level 100, right associativity) : py_scope.

(** [for x in xs: body(x)] *)
Fixpoint for_each {A} (xs : list A) (body : A -> M unit) : M unit :=
  match xs with
  | [] => ret tt
  | x :: rest => bind (body x) (fun _ => for_each rest body)
  end.

(** A manager with nothing on the wire yet. *)
Definition start (m : ConnectionManager) : World := {| mgr := m; trace := [] |}.

(** ** Environment: what the outside world answers *)

Record Env := {
  (** [await websocket.accept()]: [None] when it returns, [Some e] when it raises [e] *)
  accept_outcome : WebSocket -> option PyException;
  (** [await websocket.send_text(text)]: likewise *)
  send_outcome : WebSocket -> Message -> option PyException;
  (** [asyncio.get_running_loop()]: [None] when it raises [RuntimeError] *)
  running_loop : option EventLoop
}.

(** One environment holds the answers given during one operation; no
    operation sends twice for the same identity.  Operations that follow
    one another may each be run against an environment of their own. *)

(** ** ConnectionManager *)

Section Manager.

Variable env : Env.

Local Open Scope py_scope.

(** [await websocket.accept()] *)
Definition websocket_accept (websocket : WebSocket) : M unit :=
  match accept_outcome env websocket with
  | None => emit (Accepted websocket)
  | Some e => emit (AcceptFailed websocket e) ;; raise e
  end.

(** [await websocket.send_text(json.dumps(message))], called on behalf of
    [user_id].  A [Message] holds JSON values only, on which [json.dumps]
    never raises; the text on the wire is recorded as the dict it encodes. *)
Definition websocket_send_text (user_id : Z) (websocket : WebSocket) (message : Message) : M unit :=
  match send_outcome env websocket message with
  | None => emit (Sent user_id websocket message)
  | Some e => emit (SendFailed user_id websocket message e) ;; raise e
  end.

(** [message['type']], evaluated by the f-string of [logger.debug]. *)
Definition message_type (message : Message) : M JValue :=
  match dict_get "type" message with
  | Some v => ret v
  | None => raise (KeyError "type")
  end.

(** [for role_set in self.connections_by_role.values(): role_set.discard(user_id)] *)
Definition discard_from_roles (user_id : Z) (idx : RoleIndex) : RoleIndex :=
  fun role => idx role ∖ {[user_id]}.

(** [self.connections_by_role[role].add(user_id)] *)
Definition add_to_role (role : UserRole) (user_id : Z) (idx : RoleIndex) : RoleIndex :=
  fun r => if decide (r = role) then idx r ∪ {[user_id]} else idx r.

(** The body of [disconnect]'s [try]: pure bookkeeping. *)
Definition disconnect_state (user_id : Z) (m : ConnectionManager) : ConnectionManager :=
  let m1 :=
    match active_connections m !! user_id with
    | Some _ =>
        (* del self.active_connections[user_id] *)
        let m := set_active_connections (delete user_id (active_connections m)) m in
        let m := set_connections_by_role (discard_from_roles user_id (connections_by_role m)) m in
        (* if user_id in self.package_subscriptions: del ... *)
        match package_subscriptions m !! user_id with
        | Some _ => set_package_subscriptions (delete user_id (package_subscriptions m)) m
        | None => m
        end
    | None => m
    end in
  (* if not self.active_connections: self.loop = None *)
  if decide (active_connections m1 = ∅) then set_loop None m1 else m1.

(** [def disconnect(self, user_id)] *)
Definition disconnect (user_id : Z) : M unit :=
  try_except
    (modify (disconnect_state user_id))
    (fun _ => ret tt).

(** [async def send_personal_message(self, message, user_id)] *)
Definition send_personal_message (message : Message) (user_id : Z) : M unit :=
  try_except
    (m <- get_mgr ;;
     match active_connections m !! user_id with
     | Some websocket =>
         websocket_send_text user_id websocket message ;;
         _ <- message_type message ;;
         ret tt
     | None => ret tt
     end)
    (fun e =>
       match e with
       | WebSocketDisconnect => disconnect user_id
       | _ => ret tt
       end).

(** The welcome message of [connect]. *)
Definition connection_established (user : User) : Message :=
  [("type", JStr "connection_established");
   ("message", JStr "Connected to real-time updates");
   ("user_id", JInt (user_id user));
   ("role", JStr (role_value (user_role user)))].

(** [async def connect(self, websocket, user)] *)
Definition connect (websocket : WebSocket) (user : User) : M unit :=
  try_except
    (websocket_accept websocket ;;
     (* try: self.loop = asyncio.get_running_loop()  except RuntimeError: self.loop = None *)
     modify (set_loop (running_loop env)) ;;
     modify (fun m => set_active_connections
                        (<[user_id user := websocket]> (active_connections m)) m) ;;
     modify (fun m => set_connections_by_role
                        (add_to_role (user_role user) (user_id user) (connections_by_role m)) m) ;;
     modify (fun m =>
               match package_subscriptions m !! user_id user with
               | None => set_package_subscriptions
                           (<[user_id user := ∅]> (package_subscriptions m)) m
               | Some _ => m
               end) ;;
     send_personal_message (connection_established user) (user_id user))
    (fun e => raise e).

(** The loop shared by [broadcast_to_role] and [broadcast_to_all]:
    [[
      for user_id in user_ids:
          try: await self.send_personal_message(message, user_id)
          except Exception as e: disconnected_users.append(user_id)
    ]] *)
Fixpoint broadcast_loop (message : Message) (user_ids : list Z)
    (disconnected_users : list Z) : M (list Z) :=
  match user_ids with
  | [] => ret disconnected_users
  | user_id :: rest =>
      d <- try_except
             (send_personal_message message user_id ;; ret disconnected_users)
             (fun _ => ret (disconnected_users ++ [user_id])%list) ;;
      broadcast_loop message rest d
  end.

(** The part of both broadcasts after the snapshot [user_ids] is taken. *)
Definition broadcast_to (message : Message) (user_ids : list Z) : M unit :=
  match user_ids with
  | [] => ret tt
  | _ =>
      disconnected_users <- broadcast_loop message user_ids [] ;;
      for_each disconnected_users disconnect
  end.

(** [async def broadcast_to_role(self, message, role)] *)
Definition broadcast_to_role (message : Message) (role : UserRole) : M unit :=
  try_except
    (m <- get_mgr ;;
     (* user_ids = list(self.connections_by_role[role]) *)
     broadcast_to message (elements (connections_by_role m role)))
    (fun _ => ret tt).

(** [async def broadcast_to_all(self, message)] *)
Definition broadcast_to_all (message : Message) : M unit :=
  try_except
    (m <- get_mgr ;;
     (* user_ids = list(self.active_connections.keys()) *)
     broadcast_to message (map_to_list (active_connections m)).*1)
    (fun _ => ret tt).

(** [self.X_subscriptions[user_id].add(ref)], after the entry was created
    when missing. *)
Definition add_subscription (user_id ref : Z) (subs : gmap Z (gset Z)) : gmap Z (gset Z) :=
  let subs :=
    match subs !! user_id with
    | None => <[user_id := ∅]> subs
    | Some _ => subs
    end in
  match subs !! user_id with
  | Some refs => <[user_id := refs ∪ {[ref]}]> subs
  | None => subs
  end.

(** [if user_id in self.X_subscriptions: self.X_subscriptions[user_id].discard(ref)] *)
Definition discard_subscription (user_id ref : Z) (subs : gmap Z (gset Z)) : gmap Z (gset Z) :=
  match subs !! user_id with
  | Some refs => <[user_id := refs ∖ {[ref]}]> subs
  | None => subs
  end.

Definition package_subscribed (package_id : Z) : Message :=
  [("type", JStr "package_subscribed");
   ("package_id", JInt package_id);
   ("message", JStr ("Subscribed to package " ++ str_int package_id ++ " updates"))].

Definition package_unsubscribed (package_id : Z) : Message :=
  [("type", JStr "package_unsubscribed");
   ("package_id", JInt package_id);
   ("message", JStr ("Unsubscribed from package " ++ str_int package_id ++ " updates"))].

Definition delivery_subscribed (delivery_id : Z) : Message :=
  [("type", JStr "delivery_subscribed");
   ("delivery_id", JInt delivery_id);
   ("message", JStr ("Subscribed to delivery " ++ str_int delivery_id ++ " location updates"))].

Definition delivery_unsubscribed (delivery_id : Z) : Message :=
  [("type", JStr "delivery_unsubscribed");
   ("delivery_id", JInt delivery_id);
   ("message", JStr ("Unsubscribed from delivery " ++ str_int delivery_id ++ " updates"))].

(** [async def subscribe_to_package(self, user_id, package_id)] *)
Definition subscribe_to_package (user_id package_id : Z) : M unit :=
  try_except
    (modify (fun m => set_package_subscriptions
                        (add_subscription user_id package_id (package_subscriptions m)) m) ;;
     send_personal_message (package_subscribed package_id) user_id)
    (fun _ => ret tt).

(** [async def unsubscribe_from_package(self, user_id, package_id)] *)
Definition unsubscribe_from_package (user_id package_id : Z) : M unit :=
  try_except
    (modify (fun m => set_package_subscriptions
                        (discard_subscription user_id package_id (package_subscriptions m)) m) ;;
     send_personal_message (package_unsubscribed package_id) user_id)
    (fun _ => ret tt).

(** [async def subscribe_to_delivery(self, user_id, delivery_id)] *)
Definition subscribe_to_delivery (user_id delivery_id : Z) : M unit :=
  try_except
    (modify (fun m => set_delivery_subscriptions
                        (add_subscription user_id delivery_id (delivery_subscriptions m)) m) ;;
     send_personal_message (delivery_subscribed delivery_id) user_id)
    (fun _ => ret tt).

(** [async def unsubscribe_from_delivery(self, user_id, delivery_id)] *)
Definition unsubscribe_from_delivery (user_id delivery_id : Z) : M unit :=
  try_except
    (modify (fun m => set_delivery_subscriptions
                        (discard_subscription user_id delivery_id (delivery_subscriptions m)) m) ;;
     send_personal_message (delivery_unsubscribed delivery_id) user_id)
    (fun _ => ret tt).

(** The resolution step of both [notify_*] methods:
    [[
      subscribed_users = []
      for user_id, ids in subscriptions.items():
          if ref in ids: subscribed_users.append(user_id)
    ]] *)
Definition subscribed_users (ref : Z) (subs : gmap Z (gset Z)) : list Z :=
  (filter (fun entry : Z * gset Z => ref ∈ snd entry) (map_to_list subs)).*1.

Definition package_update (package_id : Z) (package_data : Message) (update_type : string) : Message :=
  [("type", JStr "package_update");
   ("update_type", JStr update_type);
   ("package_id", JInt package_id);
   ("package", JDict package_data);
   ("timestamp", JStr "2024-01-01T00:00:00Z")].

(** [async def notify_package_update(self, package_id, package_data, update_type)] *)
Definition notify_package_update (package_id : Z) (package_data : Message)
    (update_type : string) : M unit :=
  try_except
    (m <- get_mgr ;;
     match subscribed_users package_id (package_subscriptions m) with
     | [] => ret tt
     | users =>
         for_each users (send_personal_message (package_update package_id package_data update_type))
     end)
    (fun _ => ret tt).

(** [timestamp or "2024-01-01T00:00:00Z"]: [None] and the empty string are falsy. *)
Definition timestamp_or_default (timestamp : option string) : string :=
  match timestamp with
  | Some "" | None => "2024-01-01T00:00:00Z"
  | Some ts => ts
  end.

Definition delivery_location (delivery_id : Z) (lat lng : float)
    (timestamp : option string) : Message :=
  [("type", JStr "delivery_location");
   ("delivery_id", JInt delivery_id);
   ("lat", JFloat lat);
   ("lng", JFloat lng);
   ("timestamp", JStr (timestamp_or_default timestamp))].

(** [async def notify_delivery_location(self, delivery_id, lat, lng, timestamp=None)] *)
Definition notify_delivery_location (delivery_id : Z) (lat lng : float)
    (timestamp : option string) : M unit :=
  try_except
    (m <- get_mgr ;;
     match subscribed_users delivery_id (delivery_subscriptions m) with
     | [] => ret tt
     | users =>
         for_each users (send_personal_message (delivery_location delivery_id lat lng timestamp))
     end)
    (fun _ => ret tt).

End Manager.

(** ** The hand-off from the write path

    [DeliveryService.update_location], after the commit: the block that
    passes [notify_delivery_location] to an event loop. *)

(** A coroutine object: code that runs when an event loop gets to it, in
    the world and against the transports of that moment. *)
Definition Coroutine := Env -> M unit.

(** What [asyncio.get_event_loop()] finds in the calling thread. *)
Inductive CallerLoop :=
| NoCurrentLoop (e : PyException)
| CurrentLoopRunning (l : EventLoop)
| CurrentLoopIdle (l : EventLoop).

Record Scheduler := {
  (** [asyncio.run_coroutine_threadsafe(coro, loop)]: [Some e] when it raises *)
  threadsafe_outcome : EventLoop -> option PyException;
  caller_loop : CallerLoop
}.

(** Where the coroutine ended up. *)
Inductive Handoff :=
| OnServerLoop (l : EventLoop) (c : Coroutine)
| TaskOnCallerLoop (l : EventLoop) (c : Coroutine)
| RanInline
| NotScheduled.

(** [[
      loop = getattr(connection_manager, 'loop', None)
      if loop:
          try: asyncio.run_coroutine_threadsafe(notify(...), loop)
          except Exception: ...
      else:
          try:
              cur_loop = asyncio.get_event_loop()
              if cur_loop.is_running(): cur_loop.create_task(notify(...))
              else: asyncio.run(notify(...))
          except Exception: ...
    ]] *)
Definition update_location_notify (sched : Scheduler) (env : Env)
    (delivery_id : Z) (lat lng : float) (w : World) : Handoff * World :=
  let coro : Coroutine := fun env => notify_delivery_location env delivery_id lat lng None in
  match loop (mgr w) with
  | Some l =>
      match threadsafe_outcome sched l with
      | None => (OnServerLoop l coro, w)
      | Some _ => (NotScheduled, w)
      end
  | None =>
      match caller_loop sched with
      | NoCurrentLoop _ => (NotScheduled, w)
      | CurrentLoopRunning l => (TaskOnCallerLoop l coro, w)
      | CurrentLoopIdle _ => (RanInline, snd (coro env w))
      end
  end.

(** The manager an operation leaves behind, and what it put on the wire,
    when started from manager [m] with an empty trace. *)
Definition mgr_after {A} (c : M A) (m : ConnectionManager) : ConnectionManager :=
  mgr (snd (c (start m))).

Definition trace_of {A} (c : M A) (m : ConnectionManager) : list Event :=
  trace (snd (c (start m))).

Definition result_of {A} (c : M A) (m : ConnectionManager) : Result A :=
  fst (c (start m)).

(** [True] when the call came back to its caller without an exception. *)
Definition returns {A} (r : Result A) : Prop :=
  match r with
  | Returned _ => True
  | Raised _ => False
  end.

(** The refs an identity is subscribed to; a missing entry holds none. *)
Definition refs_of (subs : gmap Z (gset Z)) (u : Z) : gset Z :=
  default ∅ (subs !! u).

(** What one [send_personal_message] does to the world. *)
Definition send_effect (env : Env) (message : Message) (u : Z) (w : World) : World :=
  match active_connections (mgr w) !! u with
  | None => w
  | Some ws =>
      match send_outcome env ws message with
      | None => {| mgr := mgr w; trace := trace w ++ [Sent u ws message] |}
      | Some WebSocketDisconnect =>
          {| mgr := disconnect_state u (mgr w);
             trace := trace w ++ [SendFailed u ws message WebSocketDisconnect] |}
      | Some e => {| mgr := mgr w; trace := trace w ++ [SendFailed u ws message e] |}
      end
  end.

(** ** Invariants *)

(** Every identity in a role set has a live connection. *)
Definition role_index_consistent (m : ConnectionManager) : Prop :=
  forall role u, u ∈ connections_by_role m role -> is_Some (active_connections m !! u).

(** No package ref is held for an identity without a live connection. *)
Definition package_subscribers_live (m : ConnectionManager) : Prop :=
  forall u ref, ref ∈ refs_of (package_subscriptions m) u ->
                is_Some (active_connections m !! u).

(** The same for the delivery namespace. *)
Definition delivery_subscribers_live (m : ConnectionManager) : Prop :=
  forall u ref, ref ∈ refs_of (delivery_subscriptions m) u ->
                is_Some (active_connections m !! u).

(** The loop handle is dropped whenever nobody is connected. *)
Definition loop_cleared_when_idle (m : ConnectionManager) : Prop :=
  active_connections m = ∅ -> loop m = None.

(** ** Fan-out, registration and reachability *)

(** The transport events of one [send_personal_message] to [u], decided
    by the manager [m] the send starts from. *)
Definition send_events (env : Env) (message : Message) (u : Z) (m : ConnectionManager) : list Event :=
  match active_connections m !! u with
  | None => []
  | Some ws =>
      match send_outcome env ws message with
      | None => [Sent u ws message]
      | Some e => [SendFailed u ws message e]
      end
  end.

(** Sending to each identity of a list in turn. *)
Definition send_all (env : Env) (message : Message) (l : list Z) (w : World) : World :=
  foldl (fun w u => send_effect env message u w) w l.

(** The manager [connect] builds before it sends the welcome message. *)
Definition registered (env : Env) (websocket : WebSocket) (user : User) (m : ConnectionManager) : ConnectionManager :=
  let m := set_loop (running_loop env) m in
  let m := set_active_connections (<[user_id user := websocket]> (active_connections m)) m in
  let m := set_connections_by_role
             (add_to_role (user_role user) (user_id user) (connections_by_role m)) m in
  match package_subscriptions m !! user_id user with
  | None => set_package_subscriptions (<[user_id user := ∅]> (package_subscriptions m)) m
  | Some _ => m
  end.

(** The managers the program can be in: the one [__init__] builds, and
    whatever the public operations make of a reachable one, against any
    behaviour of the transports. *)
Inductive reachable : ConnectionManager -> Prop :=
| reach_init : reachable init
| reach_connect env ws user m :
    reachable m -> reachable (mgr_after (connect env ws user) m)
| reach_disconnect u m :
    reachable m -> reachable (mgr_after (disconnect u) m)
| reach_send env message u m :
    reachable m -> reachable (mgr_after (send_personal_message env message u) m)
| reach_broadcast_to_role env message role m :
    reachable m -> reachable (mgr_after (broadcast_to_role env message role) m)
| reach_broadcast_to_all env message m :
    reachable m -> reachable (mgr_after (broadcast_to_all env message) m)
| reach_subscribe_to_package env u p m :
    reachable m -> reachable (mgr_after (subscribe_to_package env u p) m)
| reach_unsubscribe_from_package env u p m :
    reachable m -> reachable (mgr_after (unsubscribe_from_package env u p) m)
| reach_subscribe_to_delivery env u d m :
    reachable m -> reachable (mgr_after (subscribe_to_delivery env u d) m)
| reach_unsubscribe_from_delivery env u d m :
    reachable m -> reachable (mgr_after (unsubscribe_from_delivery env u d) m)
| reach_notify_package_update env p data kind m :
    reachable m -> reachable (mgr_after (notify_package_update env p data kind) m)
| reach_notify_delivery_location env d lat lng ts m :
    reachable m -> reachable (mgr_after (notify_delivery_location env d lat lng ts) m).

(** ** Scenarios *)

(** An environment in which every handshake and every send succeeds. *)
Definition healthy : Env := {|
  accept_outcome := fun _ => None;
  send_outcome := fun _ _ => None;
  running_loop := Some (Loop 0)
|}.

(** An environment in which sends on [dead] raise [e] and all else succeeds. *)
Definition failing_on (dead : WebSocket) (e : PyException) : Env := {|
  accept_outcome := fun _ => None;
  send_outcome := fun ws _ => if decide (ws = dead) then Some e else None;
  running_loop := Some (Loop 0)
|}.

(** Running operations one after the other. *)
Fixpoint run_all (ops : list (M unit)) (m : ConnectionManager) : ConnectionManager :=
  match ops with
  | [] => m
  | op :: rest => run_all rest (mgr_after op m)
  end.

Definition courier_A : User :=
  {| user_id := 1; user_email := "a@example.com"; user_role := COURIER |}.

(** A, already connected as a courier, comes back with the admin role. *)
Definition admin_A : User :=
  {| user_id := 1; user_email := "a@example.com"; user_role := ADMIN |}.

Definition sender_B : User :=
  {| user_id := 2; user_email := "b@example.com"; user_role := SENDER |}.

Definition courier_C : User :=
  {| user_id := 3; user_email := "c@example.com"; user_role := COURIER |}.

Definition courier_D : User :=
  {| user_id := 4; user_email := "d@example.com"; user_role := COURIER |}.

Definition pong : Message :=
  [("type", JStr "pong"); ("timestamp", JStr "2024-01-01T00:00:00Z")].

(** A is connected. *)
Definition only_A_connected : ConnectionManager :=
  run_all [connect healthy (Socket 1) courier_A] init.


(** Couriers A and C and sender B are connected. *)
Definition two_couriers_and_sender : ConnectionManager :=
  run_all [connect healthy (Socket 1) courier_A;
           connect healthy (Socket 2) sender_B;
           connect healthy (Socket 3) courier_C] init.

(** A (courier) and B (sender) connect and A subscribes to delivery 7. *)
Definition A_subscribed_to_delivery_7 : ConnectionManager :=
  run_all [connect healthy (Socket 1) courier_A;
           connect healthy (Socket 2) sender_B;
           subscribe_to_delivery healthy 1 7] init.

(** C and D connect and both subscribe to delivery 9. *)
Definition C_and_D_subscribed_to_delivery_9 : ConnectionManager :=
  run_all [connect healthy (Socket 3) courier_C;
           connect healthy (Socket 4) courier_D;
           subscribe_to_delivery healthy 3 9;
           subscribe_to_delivery healthy 4 9] init.

(** A is connected and subscribed to package 5. *)
Definition A_subscribed_to_package_5 : ConnectionManager :=
  run_all [connect healthy (Socket 1) courier_A;
           subscribe_to_package healthy 1 5] init.

(** A is connected and subscribed to package 5 and to delivery 7. *)
Definition A_subscribed_to_both : ConnectionManager :=
  run_all [connect healthy (Socket 1) courier_A;
           subscribe_to_package healthy 1 5;
           subscribe_to_delivery healthy 1 7] init.

(** A connects, subscribes to delivery 7, then disconnects. *)
Definition after_disconnect_of_subscriber : ConnectionManager :=
  run_all [connect healthy (Socket 1) courier_A;
           subscribe_to_delivery healthy 1 7;
           disconnect 1] init.

(** A caller that runs inside an event loop, as a coroutine does. *)
Definition inside_running_loop : Scheduler := {|
  threadsafe_outcome := fun _ => None;
  caller_loop := CurrentLoopRunning (Loop 0)
|}.

(** ** Statistics *)

(** [sum(len(refs) for refs in subscriptions.values())] *)
Definition total_refs (subs : gmap Z (gset Z)) : nat :=
  sum_list ((fun entry : Z * gset Z => size (snd entry)) <$> map_to_list subs).

(** [len(s)] as the JSON number it becomes. *)
Definition JLen (n : nat) : JValue := JInt (Z.of_nat n).

(** [def get_connection_stats(self)]: the roles come in the order in
    which [__init__] put them in the dict. *)
Definition get_connection_stats (m : ConnectionManager) : Message :=
  [("total_connections", JLen (size (active_connections m)));
   ("connections_by_role",
    JDict ((fun role => (role_value role, JLen (size (connections_by_role m role))))
             <$> [ADMIN; COURIER; SENDER; RECIPIENT]));
   ("total_package_subscriptions", JLen (total_refs (package_subscriptions m)));
   ("total_delivery_subscriptions", JLen (total_refs (delivery_subscriptions m)))].

(** ** Event producers: [backend/src/websocket/events.py] *)

(** The columns of [models/package.py]'s [Package] that the event
    producers read. *)
Record Package := {
  pkg_id : Z;
  pkg_title : string;
  pkg_sender_id : option Z;
  pkg_courier_id : option Z
}.

(** [if package.sender_id:] and the like: [None] and [0] are falsy. *)
Definition truthy_id (o : option Z) : option Z :=
  match o with
  | Some z => if decide (z = 0) then None else Some z
  | None => None
  end.

(** A value computed outside the manager, or the exception it raised. *)
Definition lift_result {A} (r : Result A) : M A :=
  match r with
  | Returned a => ret a
  | Raised e => raise e
  end.

Section Events.

Variable env : Env.

(** [PackageResponse.model_validate(package).model_dump()]: the schema
    layer's rendering of a package, or the exception it raises. *)
Variable model_dump : Package -> Result Message.

Local Open Scope py_scope.

Definition package_created_message (package : Package) (package_data : Message) : Message :=
  [("type", JStr "package_created");
   ("package", JDict package_data);
   ("message", JStr ("New package created: " ++ pkg_title package));
   ("timestamp", JStr "2024-01-01T00:00:00Z")].

Definition new_package_available_message (package : Package) (package_data : Message) : Message :=
  [("type", JStr "new_package_available");
   ("package", JDict package_data);
   ("message", JStr ("New package available for pickup: " ++ pkg_title package));
   ("timestamp", JStr "2024-01-01T00:00:00Z")].

Definition package_assigned_to_you (package : Package) : Message :=
  [("type", JStr "package_assigned_to_you");
   ("package_id", JInt (pkg_id package));
   ("message", JStr ("Package '" ++ pkg_title package ++ "' has been assigned to you"));
   ("timestamp", JStr "2024-01-01T00:00:00Z")].

Definition package_picked_up (package : Package) : Message :=
  [("type", JStr "package_picked_up");
   ("package_id", JInt (pkg_id package));
   ("message", JStr ("Your package '" ++ pkg_title package ++ "' has been picked up"));
   ("timestamp", JStr "2024-01-01T00:00:00Z")].

Definition package_delivered (package : Package) : Message :=
  [("type", JStr "package_delivered");
   ("package_id", JInt (pkg_id package));
   ("message", JStr ("Your package '" ++ pkg_title package
                       ++ "' has been delivered successfully"));
   ("timestamp", JStr "2024-01-01T00:00:00Z")].

Definition delivery_failed (package : Package) : Message :=
  [("type", JStr "delivery_failed");
   ("package_id", JInt (pkg_id package));
   ("message", JStr ("Delivery failed for package '" ++ pkg_title package ++ "'"));
   ("timestamp", JStr "2024-01-01T00:00:00Z")].

(** [if target: await connection_manager.send_personal_message(message, target)] *)
Definition send_if_set (message : Message) (target : option Z) : M unit :=
  match truthy_id target with
  | Some user_id => send_personal_message env message user_id
  | None => ret tt
  end.

(** [async def _notify_package_assigned(package)] *)
Definition _notify_package_assigned (package : Package) : M unit :=
  send_if_set (package_assigned_to_you package) (pkg_courier_id package).

(** [async def _notify_package_picked_up(package)] *)
Definition _notify_package_picked_up (package : Package) : M unit :=
  send_if_set (package_picked_up package) (pkg_sender_id package).

(** [async def _notify_package_delivered(package)] *)
Definition _notify_package_delivered (package : Package) : M unit :=
  send_if_set (package_delivered package) (pkg_sender_id package).

(** [async def _notify_delivery_failed(package)] *)
Definition _notify_delivery_failed (package : Package) : M unit :=
  send_if_set (delivery_failed package) (pkg_sender_id package) ;;
  send_if_set (delivery_failed package) (pkg_courier_id package).

(** [async def package_status_updated(package, old_status, new_status)].
    The dict the source builds under the name [message] (type
    ["package_status_updated"]) is never passed to anything, so it has no
    counterpart here.  The statuses are compared with the [value]s of
    [PackageStatus]. *)
Definition package_status_updated (package : Package) (old_status new_status : string) : M unit :=
  try_except
    (package_data <- lift_result (model_dump package) ;;
     notify_package_update env (pkg_id package) package_data "status_updated" ;;
     if decide (new_status = "assigned") then _notify_package_assigned package
     else if decide (new_status = "picked_up") then _notify_package_picked_up package
     else if decide (new_status = "delivered") then _notify_package_delivered package
     else if decide (new_status = "failed") then _notify_delivery_failed package
     else ret tt)
    (fun _ => ret tt).

Definition courier_location_message (courier_id : Z) (location_data : Message) : Message :=
  [("type", JStr "courier_location_updated");
   ("courier_id", JInt courier_id);
   ("location", JDict location_data);
   ("timestamp", JStr "2024-01-01T00:00:00Z")].

(** [async def courier_location_updated(courier_id, location_data)] *)
Definition courier_location_updated (courier_id : Z) (location_data : Message) : M unit :=
  try_except
    (broadcast_to_role env (courier_location_message courier_id location_data) ADMIN)
    (fun _ => ret tt).

Definition announcement (message : string) : Message :=
  [("type", JStr "system_announcement");
   ("message", JStr message);
   ("timestamp", JStr "2024-01-01T00:00:00Z")].

(** [async def system_announcement(message, target_roles=None)]:
    [if target_roles:] is false for [None] and for the empty list. *)
Definition system_announcement (message : string) (target_roles : option (list UserRole)) : M unit :=
  try_except
    (match target_roles with
     | Some (role :: roles) =>
         for_each (role :: roles) (broadcast_to_role env (announcement message))
     | Some [] | None => broadcast_to_all env (announcement message)
     end)
    (fun _ => ret tt).

End Events.

(** ** Announcing a new package

    [PackageResponse] ([api/schemas/package.py]) declares
    [created_at: datetime] and [updated_at: datetime], and [model_dump()]
    hands them back as [datetime] objects, which [json.dumps] refuses
    with a [TypeError]. *)

(** A value of the dict [model_dump()] returns: one that [json.dumps]
    can encode, or a [datetime] object. *)
Inductive Rendered :=
| Encodable (v : JValue)
| DatetimeObject (stamp : Z).

Definition Rendering := list (string * Rendered).

(** [json.dumps] on a rendering: the JSON object it writes, [None] when
    it raises. *)
Fixpoint json_of (package_data : Rendering) : option Message :=
  match package_data with
  | [] => Some []
  | (key, Encodable v) :: rest =>
      match json_of rest with
      | Some data => Some ((key, v) :: data)
      | None => None
      end
  | (key, DatetimeObject _) :: rest => None
  end.

Section NewPackage.

Variable env : Env.

(** The exception [json.dumps] raises on a dict it cannot encode. *)
Variable type_error : PyException.

(** [PackageResponse.model_validate(package).model_dump()], or the
    exception it raises. *)
Variable model_dump : Package -> Result Rendering.

Local Open Scope py_scope.

(** [send_personal_message] on a dict [json.dumps] cannot encode: for a
    connected identity [json.dumps(message)] raises before [send_text]
    is called. *)
Definition send_unencodable (user_id : Z) : M unit :=
  try_except
    (m <- get_mgr ;;
     match active_connections m !! user_id with
     | Some websocket => raise type_error
     | None => ret tt
     end)
    (fun e =>
       match e with
       | WebSocketDisconnect => disconnect user_id
       | _ => ret tt
       end).

(** The loop of [broadcast_to_role] on such a dict. *)
Fixpoint broadcast_unencodable_loop (user_ids : list Z) (disconnected_users : list Z)
    : M (list Z) :=
  match user_ids with
  | [] => ret disconnected_users
  | user_id :: rest =>
      d <- try_except
             (send_unencodable user_id ;; ret disconnected_users)
             (fun _ => ret (disconnected_users ++ [user_id])%list) ;;
      broadcast_unencodable_loop rest d
  end.

(** [broadcast_to_role] on such a dict. *)
Definition broadcast_unencodable_to_role (role : UserRole) : M unit :=
  try_except
    (m <- get_mgr ;;
     match elements (connections_by_role m role) with
     | [] => ret tt
     | user_ids =>
         disconnected_users <- broadcast_unencodable_loop user_ids [] ;;
         for_each disconnected_users disconnect
     end)
    (fun _ => ret tt).

(** [await connection_manager.broadcast_to_role({..., "package":
    package_data, ...}, role)]: the envelope can be encoded exactly when
    the rendering in it can. *)
Definition broadcast_rendered_to_role (envelope : Message -> Message)
    (package_data : Rendering) (role : UserRole) : M unit :=
  match json_of package_data with
  | Some data => broadcast_to_role env (envelope data) role
  | None => broadcast_unencodable_to_role role
  end.

(** [async def package_created(package)] *)
Definition package_created (package : Package) : M unit :=
  try_except
    (package_data <- lift_result (model_dump package) ;;
     broadcast_rendered_to_role (package_created_message package) package_data ADMIN ;;
     broadcast_rendered_to_role (new_package_available_message package) package_data COURIER)
    (fun _ => ret tt).

End NewPackage.

(** ** Protocol layer: [backend/src/api/routes/websocket.py] *)

(** Python's truth value of a decoded JSON value: [None], zero, the empty
    string and the empty dict are falsy; a NaN is truthy. *)
Definition truthy (v : JValue) : bool :=
  match v with
  | JNone => false
  | JInt z => negb (Z.eqb z 0)
  | JFloat f => negb (PrimFloat.eqb f 0)
  | JStr s => negb (String.eqb s "")
  | JDict [] => false
  | JDict (_ :: _) => true
  end.

(** [v == s] for a string literal [s]. *)
Definition is_str (v : JValue) (s : string) : bool :=
  match v with
  | JStr t => String.eqb t s
  | _ => false
  end.

(** [message.get(key)]: [None] for a missing key. *)
Definition message_get (key : string) (message : Message) : JValue :=
  default JNone (dict_get key message).

(** What [await websocket.receive_text()] followed by [json.loads] gives.
    Inbound text that is valid JSON but not an object is not part of the
    model. *)
Inductive Received :=
| ReceiveRaises (e : PyException)
| InvalidJson
| JsonObject (message : Message).

(** How far a session got. *)
Inductive SessionEnd :=
| Rejected
| ConnectFailed
| Disconnected
| StillReceiving.

Definition error_message (text : string) : Message :=
  [("type", JStr "error"); ("message", JStr text)].

Definition pong_message : Message :=
  [("type", JStr "pong"); ("timestamp", JStr "2024-01-01T00:00:00Z")].

Definition stats_message (stats : Message) : Message :=
  [("type", JStr "stats"); ("data", JDict stats)].

Section Protocol.

(** Python's built-in [int(x)] and the [str(x)] an f-string applies:
    outside the repository, so taken as they are given. *)
Variable py_int : JValue -> Result Z.
Variable py_str : JValue -> string.

Local Open Scope py_scope.

(** One [subscribe_*] or [unsubscribe_*] branch:
    [[
      entity_id = message.get(field)
      if entity_id:
          await action(user.id, int(entity_id))
    ]] *)
Definition entity_command (field : string) (action : Z -> Z -> M unit)
    (user : User) (message : Message) : M unit :=
  let entity_id := message_get field message in
  if truthy entity_id
  then (n <- lift_result (py_int entity_id) ;; action (user_id user) n)
  else ret tt.

(** [async def handle_websocket_message(user, message, db)] *)
Definition handle_websocket_message (env : Env) (user : User) (message : Message) : M unit :=
  try_except
    (let message_type := message_get "type" message in
     if is_str message_type "ping" then
       send_personal_message env pong_message (user_id user)
     else if is_str message_type "subscribe_package" then
       entity_command "package_id" (subscribe_to_package env) user message
     else if is_str message_type "unsubscribe_package" then
       entity_command "package_id" (unsubscribe_from_package env) user message
     else if is_str message_type "subscribe_delivery" then
       entity_command "delivery_id" (subscribe_to_delivery env) user message
     else if is_str message_type "unsubscribe_delivery" then
       entity_command "delivery_id" (unsubscribe_from_delivery env) user message
     else if is_str message_type "get_stats" then
       (if decide (role_value (user_role user) = "admin") then
          m <- get_mgr ;;
          send_personal_message env (stats_message (get_connection_stats m)) (user_id user)
        else
          send_personal_message env (error_message "Insufficient permissions") (user_id user))
     else
       send_personal_message env
         (error_message ("Unknown message type: " ++ py_str message_type)) (user_id user))
    (fun _ => send_personal_message env (error_message "Message handling failed") (user_id user)).

(** [async def auto_subscribe_user_packages(user, db)], given the ids of
    the packages its query returned, or the exception the query raised. *)
Definition auto_subscribe_user_packages (env : Env) (user : User)
    (packages : Result (list Z)) : M unit :=
  try_except
    (ids <- lift_result packages ;;
     for_each ids (subscribe_to_package env (user_id user)))
    (fun _ => ret tt).

(** One turn of the [while True] loop of [websocket_endpoint]; [true]
    when the loop goes on, [false] on [break]. *)
Definition serve_one (env : Env) (user : User) (received : Received) : M bool :=
  try_except
    (match received with
     | ReceiveRaises e => raise e
     | InvalidJson =>
         send_personal_message env (error_message "Invalid JSON format") (user_id user) ;;
         ret true
     | JsonObject message =>
         handle_websocket_message env user message ;; ret true
     end)
    (fun e =>
       match e with
       | WebSocketDisconnect => ret false
       | _ =>
           send_personal_message env (error_message "Message processing failed") (user_id user) ;;
           ret true
       end).

(** The loop, over what the socket yields turn by turn, each turn with
    the transports as they are then. *)
Fixpoint serve (user : User) (script : list (Env * Received)) : M SessionEnd :=
  match script with
  | [] => ret StillReceiving
  | (env, received) :: rest =>
      go_on <- serve_one env user received ;;
      if go_on : bool then serve user rest else ret Disconnected
  end.

(** [async def websocket_endpoint(websocket, token, db)], given what
    [authenticate_websocket] returned.  The [finally] clause runs once the
    [try] block is left, which it is not while the loop still waits for
    input.  Closing a rejected socket leaves no trace. *)
Definition websocket_endpoint (env : Env) (websocket : WebSocket) (auth : option User)
    (packages : Result (list Z)) (script : list (Env * Received)) : M SessionEnd :=
  match auth with
  | None => ret Rejected
  | Some user =>
      ended <- try_except
                 (connect env websocket user ;;
                  auto_subscribe_user_packages env user packages ;;
                  serve user script)
                 (fun _ => disconnect (user_id user) ;; ret ConnectFailed) ;;
      match ended with
      | StillReceiving => ret StillReceiving
      | _ => disconnect (user_id user) ;; ret ended
      end
  end.

End Protocol.

(** ** Delivery service: [backend/src/services/delivery_service.py] *)

(** [models/delivery.py]: [class DeliveryStatus(str, enum.Enum)]. *)
Inductive DeliveryStatus :=
| CREATED | ASSIGNED | PICKED_UP | IN_TRANSIT | DELIVERED | FAILED | CANCELLED.

(** The columns of [models/delivery.py]'s [Delivery] that the service
    reads back; a point in time is a number.  The bookkeeping columns
    [created_at] and [updated_at] are left out. *)
Record Delivery := {
  dlv_id : Z;
  dlv_package_id : Z;
  dlv_courier_id : option Z;
  dlv_status : DeliveryStatus;
  dlv_current_lat : option float;
  dlv_current_lng : option float;
  dlv_last_update : option Z
}.

(** The tables the service queries: the ids of the packages, the users
    by id and the deliveries by id. *)
Record Database := {
  packages : gset Z;
  users : gmap Z User;
  deliveries : gmap Z Delivery
}.

(** What the database and the clock answer during one call. *)
Record DbEnv := {
  (** the lookups [self.db.query(...).first()] the call starts with:
      [Some e] when one of them raises *)
  query_outcome : option PyException;
  (** [self.db.commit()] (after [self.db.add(row)] for a new row):
      [Some e] when it raises *)
  commit_outcome : option PyException;
  (** [self.db.refresh(row)], called once the commit is through *)
  refresh_outcome : option PyException;
  (** [self.db.rollback()] in the exception handler *)
  rollback_outcome : option PyException;
  (** the primary key given to an inserted row *)
  new_id : Z;
  (** [datetime.utcnow()] *)
  utcnow : Z
}.

Definition set_deliveries (d : gmap Z Delivery) (db : Database) : Database :=
  {| packages := packages db; users := users db; deliveries := d |}.

(** What a call leaves behind: what it returned or raised, and the
    tables. *)
Definition Outcome : Type := Result (option Delivery) * Database.

(** The tables once the commit of the session's one new or changed
    [row] is through. *)
Definition stores (db : Database) (row : Delivery) : Database :=
  set_deliveries (<[dlv_id row := row]> (deliveries db)) db.

(** [except Exception: self.db.rollback(); return None].  The rollback
    undoes nothing that was committed; an exception it raises leaves the
    call. *)
Definition rollback_return_none (dbenv : DbEnv) (db : Database) : Outcome :=
  match rollback_outcome dbenv with
  | None => (Returned None, db)
  | Some e => (Raised e, db)
  end.

(** [try: self.db.commit(); self.db.refresh(row); return row
     except Exception: self.db.rollback(); return None],
    for a [row] changed or added in the session.  When [refresh] raises
    the commit has already happened. *)
Definition commit_row (dbenv : DbEnv) (row : Delivery) (db : Database) : Outcome :=
  match commit_outcome dbenv with
  | Some _ => rollback_return_none dbenv db
  | None =>
      match refresh_outcome dbenv with
      | None => (Returned (Some row), stores db row)
      | Some _ => rollback_return_none dbenv (stores db row)
      end
  end.

(** The lookups come before the [try]: an exception of theirs leaves the
    call at once. *)
Definition after_query (dbenv : DbEnv) (db : Database) (rest : Outcome) : Outcome :=
  match query_outcome dbenv with
  | Some e => (Raised e, db)
  | None => rest
  end.


(** The row [assign_courier] writes: [delivery.courier_id = courier_id;
    delivery.status = DeliveryStatus.ASSIGNED]. *)
Definition assigned (courier_id : Z) (delivery : Delivery) : Delivery :=
  {| dlv_id := dlv_id delivery;
     dlv_package_id := dlv_package_id delivery;
     dlv_courier_id := Some courier_id;
     dlv_status := ASSIGNED;
     dlv_current_lat := dlv_current_lat delivery;
     dlv_current_lng := dlv_current_lng delivery;
     dlv_last_update := dlv_last_update delivery |}.

(** [def assign_courier(self, delivery_id, courier_id, assigner)] *)
Definition assign_courier (dbenv : DbEnv) (delivery_id courier_id : Z) (assigner : User)
    (db : Database) : Outcome :=
  after_query dbenv db
    match deliveries db !! delivery_id, users db !! courier_id with
    | Some delivery, Some courier =>
        match user_role assigner with
        | ADMIN | COURIER =>
            match user_role courier with
            | COURIER => commit_row dbenv (assigned courier_id delivery) db
            | _ => (Returned None, db)
            end
        | _ => (Returned None, db)
        end
    | _, _ => (Returned None, db)
    end.






(** [def get_delivery(self, delivery_id)] *)
Definition get_delivery (delivery_id : Z) (db : Database) : option Delivery :=
  deliveries db !! delivery_id.


(** ** More scenarios *)

Definition admin_E : User :=
  {| user_id := 5; user_email := "e@example.com"; user_role := ADMIN |}.

(** Admin E, courier A and sender B are connected. *)
Definition admin_courier_and_sender : ConnectionManager :=
  run_all [connect healthy (Socket 5) admin_E;
           connect healthy (Socket 1) courier_A;
           connect healthy (Socket 2) sender_B] init.

(** A package sent by B and carried by A. *)
Definition parcel : Package :=
  {| pkg_id := 3; pkg_title := "Box"; pkg_sender_id := Some 2; pkg_courier_id := Some 1 |}.

(** A rendering of a package that always succeeds. *)
Definition plain_dump (package : Package) : Result Message :=
  Returned [("id", JInt (pkg_id package)); ("title", JStr (pkg_title package))].

(** The rendering the schema gives: the fields of the package and the
    two timestamps. *)
Definition dated_dump (package : Package) : Result Rendering :=
  Returned [("title", Encodable (JStr (pkg_title package)));
            ("id", Encodable (JInt (pkg_id package)));
            ("created_at", DatetimeObject 1700000000);
            ("updated_at", DatetimeObject 1700000000)].

(** An [int] that takes integers and refuses everything else. *)
Definition int_of_int_only (v : JValue) : Result Z :=
  match v with
  | JInt z => Returned z
  | _ => Raised RuntimeError
  end.

(** A [str] that renders strings as they are. *)
Definition str_of_str_only (v : JValue) : string :=
  match v with
  | JStr s => s
  | _ => "None"
  end.

(** The four commands that name an entity, each with the field that
    carries its id. *)
Definition entity_commands : list (string * string) :=
  [("subscribe_package", "package_id"); ("unsubscribe_package", "package_id");
   ("subscribe_delivery", "delivery_id"); ("unsubscribe_delivery", "delivery_id")].

(** The types of the envelopes [package_status_updated] can put on the wire. *)
Definition status_update_types : list string :=
  ["package_update"; "package_assigned_to_you"; "package_picked_up";
   "package_delivered"; "delivery_failed"].

(** The types of the envelopes [handle_websocket_message] can send. *)
Definition reply_types : list string :=
  ["pong"; "package_subscribed"; "package_unsubscribed";
   "delivery_subscribed"; "delivery_unsubscribed"; "stats"; "error"].

(** Delivery 7 of package 3, nobody assigned yet. *)
Definition sample_delivery : Delivery :=
  {| dlv_id := 7; dlv_package_id := 3; dlv_courier_id := None;
     dlv_status := CREATED; dlv_current_lat := None;
     dlv_current_lng := None; dlv_last_update := None |}.

(** A database with courier A, sender B, package 3 and its delivery 7. *)
Definition sample_db : Database := {|
  packages := {[3]};
  users := <[1 := courier_A]> (<[2 := sender_B]> ∅);
  deliveries := {[7 := sample_delivery]}
|}.

(** A database that answers every call, one whose commit fails, and one
    whose refresh fails after the commit. *)
Definition committing : DbEnv :=
  {| query_outcome := None; commit_outcome := None; refresh_outcome := None;
     rollback_outcome := None; new_id := 8; utcnow := 1000 |}.







(** Transports on which every send goes through. *)
Definition accepts_all (env : Env) : Prop :=
  forall ws message, send_outcome env ws message = None.

(** Every identity with a live connection is in the set of some role. *)
Definition live_has_role (m : ConnectionManager) : Prop :=
  forall u, is_Some (active_connections m !! u) ->
            exists role, u ∈ connections_by_role m role.

(** No envelope reached anybody. *)
Definition delivered_nothing (t : list Event) : Prop :=
  forall u, deliveries_to u t = [].

(** Every envelope that reached anybody satisfies [P]. *)
Definition all_deliveries (P : Message -> Prop) (t : list Event) : Prop :=
  forall u message, message ∈ deliveries_to u t -> P message.

(** [message['type']] when it is a string. *)
Definition envelope_type (message : Message) : option string :=
  match dict_get "type" message with
  | Some (JStr t) => Some t
  | _ => None
  end.

(** Manager [m'] differs from [m] at most in what concerns identity
    [u]: every other identity has the socket, the role memberships and
    the subscriptions it had. *)
Definition only_touches (u : Z) (m m' : ConnectionManager) : Prop :=
  forall u', u' <> u ->
    active_connections m' !! u' = active_connections m !! u' /\
    (forall role, u' ∈ connections_by_role m' role <-> u' ∈ connections_by_role m role) /\
    package_subscriptions m' !! u' = package_subscriptions m !! u' /\
    delivery_subscriptions m' !! u' = delivery_subscriptions m !! u'.

(** A computation keeps a relation between the world it starts in and
    the world it leaves, however it ends. *)
Definition preserves {A} (R : World -> World -> Prop) (c : M A) : Prop :=
  forall w, R w (snd (c w)).

(** The world changes for identity [u] only. *)
Definition touching (u : Z) (w w' : World) : Prop :=
  only_touches u (mgr w) (mgr w').

(** The envelopes delivered go on satisfying [P]. *)
Definition delivering (P : Message -> Prop) (w w' : World) : Prop :=
  all_deliveries P (trace w) -> all_deliveries P (trace w').

(** [True] when the script holds a receive that raises [WebSocketDisconnect]. *)
Fixpoint has_disconnect (script : list (Env * Received)) : bool :=
  match script with
  | [] => false
  | (_, ReceiveRaises WebSocketDisconnect) :: _ => true
  | _ :: rest => has_disconnect rest
  end.

(** ** Basic facts *)

Section Facts.

Variable env : Env.

Lemma disconnect_eq u w :
  disconnect u w = (Returned tt, {| mgr := disconnect_state u (mgr w); trace := trace w |}).
Proof. reflexivity. Qed.

Lemma active_disconnect_state u m :
  active_connections (disconnect_state u m) = delete u (active_connections m).
Proof.
  unfold disconnect_state.
  destruct (active_connections m !! u) as [ws|] eqn:Hu; simpl.
  - destruct (package_subscriptions m !! u); simpl; case_decide; reflexivity.
  - rewrite delete_id by exact Hu. case_decide; reflexivity.
Qed.

Lemma delivery_disconnect_state u m :
  delivery_subscriptions (disconnect_state u m) = delivery_subscriptions m.
Proof.
  unfold disconnect_state.
  destruct (active_connections m !! u); simpl.
  - destruct (package_subscriptions m !! u); simpl; case_decide; reflexivity.
  - case_decide; reflexivity.
Qed.

Lemma package_disconnect_state u m :
  package_subscriptions (disconnect_state u m) =
  match active_connections m !! u with
  | Some _ => delete u (package_subscriptions m)
  | None => package_subscriptions m
  end.
Proof.
  unfold disconnect_state.
  destruct (active_connections m !! u); simpl.
  - destruct (package_subscriptions m !! u) eqn:Hp; simpl.
    + case_decide; reflexivity.
    + case_decide; simpl; symmetry; apply delete_id; exact Hp.
  - case_decide; reflexivity.
Qed.

Lemma roles_disconnect_state u m role :
  connections_by_role (disconnect_state u m) role =
  match active_connections m !! u with
  | Some _ => connections_by_role m role ∖ {[u]}
  | None => connections_by_role m role
  end.
Proof.
  unfold disconnect_state.
  destruct (active_connections m !! u); simpl.
  - destruct (package_subscriptions m !! u); simpl; case_decide; reflexivity.
  - case_decide; reflexivity.
Qed.

Lemma loop_disconnect_state u m :
  loop_cleared_when_idle m -> loop_cleared_when_idle (disconnect_state u m).
Proof.
  intros Hm Hempty. unfold disconnect_state in *.
  destruct (active_connections m !! u); simpl in *.
  - destruct (package_subscriptions m !! u); simpl in *;
      case_decide; simpl in *; congruence.
  - case_decide; simpl in *; auto.
Qed.

Lemma send_personal_message_eq message u w :
  send_personal_message env message u w = (Returned tt, send_effect env message u w).
Proof.
  destruct w as [m t].
  unfold send_personal_message, send_effect, try_except, bind, get_mgr,
    websocket_send_text, message_type; simpl.
  destruct (active_connections m !! u) as [ws|]; [|reflexivity].
  destruct (send_outcome env ws message) as [e|]; simpl.
  - destruct e; reflexivity.
  - unfold emit; simpl. destruct (dict_get "type" message); reflexivity.
Qed.

End Facts.

(** ** Fan-out *)

Lemma deliveries_to_app u t1 t2 :
  deliveries_to u (t1 ++ t2) = (deliveries_to u t1 ++ deliveries_to u t2)%list.
Proof.
  induction t1 as [|ev t1 IH]; simpl; [reflexivity|].
  destruct ev; try exact IH. case_decide; simpl; congruence.
Qed.

Lemma attempts_for_app u t1 t2 :
  attempts_for u (t1 ++ t2) = (attempts_for u t1 + attempts_for u t2)%nat.
Proof.
  induction t1 as [|ev t1 IH]; simpl; [reflexivity|].
  destruct ev; try exact IH; case_decide; simpl; congruence.
Qed.

Section FanOut.

Variable env : Env.
Variable message : Message.

Lemma send_effect_trace u w :
  trace (send_effect env message u w) = (trace w ++ send_events env message u (mgr w))%list.
Proof.
  unfold send_effect, send_events.
  destruct (active_connections (mgr w) !! u) as [ws|]; simpl.
  - destruct (send_outcome env ws message) as [[]|]; reflexivity.
  - symmetry. apply app_nil_r.
Qed.

Lemma send_effect_active_ne u u' w :
  u' ≠ u ->
  active_connections (mgr (send_effect env message u w)) !! u' =
  active_connections (mgr w) !! u'.
Proof.
  intros Hne. unfold send_effect.
  destruct (active_connections (mgr w) !! u) as [ws|]; [|reflexivity].
  destruct (send_outcome env ws message) as [[]|]; simpl; try reflexivity.
  rewrite active_disconnect_state. apply lookup_delete_ne. congruence.
Qed.

Lemma send_effect_delivery u w :
  delivery_subscriptions (mgr (send_effect env message u w)) =
  delivery_subscriptions (mgr w).
Proof.
  unfold send_effect.
  destruct (active_connections (mgr w) !! u) as [ws|]; [|reflexivity].
  destruct (send_outcome env ws message) as [[]|]; simpl; try reflexivity.
  apply delivery_disconnect_state.
Qed.

Lemma send_events_ext u m m' :
  active_connections m !! u = active_connections m' !! u ->
  send_events env message u m = send_events env message u m'.
Proof. unfold send_events. intros ->. reflexivity. Qed.

Lemma send_all_cons u l w :
  send_all env message (u :: l) w = send_all env message l (send_effect env message u w).
Proof. reflexivity. Qed.

Lemma send_all_active_notin l : forall w u,
  u ∉ l ->
  active_connections (mgr (send_all env message l w)) !! u =
  active_connections (mgr w) !! u.
Proof.
  induction l as [|a l IH]; intros w u Hu; [reflexivity|].
  rewrite send_all_cons, IH by set_solver.
  apply send_effect_active_ne. set_solver.
Qed.

Lemma send_all_delivery l : forall w,
  delivery_subscriptions (mgr (send_all env message l w)) =
  delivery_subscriptions (mgr w).
Proof.
  induction l as [|a l IH]; intros w; [reflexivity|].
  rewrite send_all_cons, IH. apply send_effect_delivery.
Qed.

(** With a snapshot free of duplicates, every send faces the connection
    its identity had when the snapshot was taken. *)
Lemma send_all_trace l : forall w,
  NoDup l ->
  trace (send_all env message l w) =
  (trace w ++ flat_map (fun u => send_events env message u (mgr w)) l)%list.
Proof.
  induction l as [|a l IH]; intros w Hnd.
  - simpl. symmetry. apply app_nil_r.
  - apply NoDup_cons in Hnd as [Ha Hnd].
    rewrite send_all_cons, IH by exact Hnd.
    rewrite send_effect_trace. simpl. rewrite <- app_assoc. do 2 f_equal.
    clear IH Hnd. induction l as [|b l IHl]; [reflexivity|].
    simpl. rewrite IHl by set_solver. f_equal.
    apply send_events_ext, send_effect_active_ne. set_solver.
Qed.

Lemma deliveries_to_send_events u u' m :
  deliveries_to u (send_events env message u' m) =
  if decide (u' = u) then deliveries_to u (send_events env message u m) else [].
Proof.
  case_decide as Hu; [subst; reflexivity|].
  unfold send_events. destruct (active_connections m !! u') as [ws|]; [|reflexivity].
  destruct (send_outcome env ws message); simpl; [reflexivity|].
  case_decide; [contradiction|reflexivity].
Qed.

Lemma attempts_for_send_events u u' m :
  attempts_for u (send_events env message u' m) =
  if decide (u' = u) then attempts_for u (send_events env message u m) else 0%nat.
Proof.
  case_decide as Hu; [subst; reflexivity|].
  unfold send_events. destruct (active_connections m !! u') as [ws|]; [|reflexivity].
  destruct (send_outcome env ws message); simpl; case_decide; done.
Qed.

Lemma deliveries_to_fan_out u m l :
  NoDup l ->
  deliveries_to u (flat_map (fun u' => send_events env message u' m) l) =
  if decide (u ∈ l) then deliveries_to u (send_events env message u m) else [].
Proof.
  induction l as [|a l IH]; intros Hnd; [reflexivity|].
  apply NoDup_cons in Hnd as [Ha Hnd]. simpl.
  rewrite deliveries_to_app, deliveries_to_send_events, IH by exact Hnd.
  destruct (decide (a = u)) as [->|Hne].
  - rewrite (decide_False (P := u ∈ l)) by exact Ha.
    rewrite decide_True by apply list_elem_of_here. apply app_nil_r.
  - simpl. destruct (decide (u ∈ l)) as [Hin|Hnin].
    + rewrite decide_True by (apply list_elem_of_further; exact Hin). reflexivity.
    + rewrite decide_False; [reflexivity|].
      intros [?|?]%elem_of_cons; congruence.
Qed.

Lemma attempts_for_fan_out u m l :
  NoDup l ->
  attempts_for u (flat_map (fun u' => send_events env message u' m) l) =
  if decide (u ∈ l) then attempts_for u (send_events env message u m) else 0%nat.
Proof.
  induction l as [|a l IH]; intros Hnd; [reflexivity|].
  apply NoDup_cons in Hnd as [Ha Hnd]. simpl.
  rewrite attempts_for_app, attempts_for_send_events, IH by exact Hnd.
  destruct (decide (a = u)) as [->|Hne].
  - rewrite (decide_False (P := u ∈ l)) by exact Ha.
    rewrite decide_True by apply list_elem_of_here. lia.
  - simpl. destruct (decide (u ∈ l)) as [Hin|Hnin].
    + rewrite decide_True by (apply list_elem_of_further; exact Hin). reflexivity.
    + rewrite decide_False; [reflexivity|].
      intros [?|?]%elem_of_cons; congruence.
Qed.

Lemma broadcast_loop_eq l : forall d w,
  broadcast_loop env message l d w = (Returned d, send_all env message l w).
Proof.
  induction l as [|a l IH]; intros d w; [reflexivity|].
  simpl. unfold bind at 1, try_except, bind.
  rewrite send_personal_message_eq. simpl. apply IH.
Qed.

Lemma broadcast_to_eq l w :
  broadcast_to env message l w = (Returned tt, send_all env message l w).
Proof.
  destruct l as [|a l]; [reflexivity|].
  unfold broadcast_to, bind. rewrite broadcast_loop_eq. reflexivity.
Qed.

Lemma for_each_send_eq l : forall w,
  for_each l (send_personal_message env message) w = (Returned tt, send_all env message l w).
Proof.
  induction l as [|a l IH]; intros w; [reflexivity|].
  simpl. unfold bind. rewrite send_personal_message_eq. apply IH.
Qed.

Lemma broadcast_to_role_eq role w :
  broadcast_to_role env message role w =
  (Returned tt, send_all env message (elements (connections_by_role (mgr w) role)) w).
Proof.
  unfold broadcast_to_role, try_except, bind, get_mgr.
  rewrite broadcast_to_eq. reflexivity.
Qed.

End FanOut.

(** ** Preservation of the invariants *)

Lemma refs_of_delete_eq subs u : refs_of (delete u subs) u = ∅.
Proof. unfold refs_of. rewrite lookup_delete_eq. reflexivity. Qed.

Lemma refs_of_delete_ne subs u u' : u ≠ u' -> refs_of (delete u subs) u' = refs_of subs u'.
Proof. intros Hne. unfold refs_of. rewrite lookup_delete_ne by exact Hne. reflexivity. Qed.

Lemma refs_of_add_subscription subs u ref u' :
  refs_of (add_subscription u ref subs) u' =
  if decide (u = u') then refs_of subs u ∪ {[ref]} else refs_of subs u'.
Proof.
  unfold add_subscription, refs_of.
  destruct (subs !! u) as [refs|] eqn:Hu; simpl.
  - rewrite Hu. case_decide as Hd.
    + subst. rewrite lookup_insert_eq. reflexivity.
    + rewrite lookup_insert_ne by exact Hd. reflexivity.
  - rewrite lookup_insert_eq. case_decide as Hd.
    + subst. rewrite lookup_insert_eq. reflexivity.
    + rewrite !lookup_insert_ne by exact Hd. reflexivity.
Qed.

Lemma refs_of_discard_subscription subs u ref u' :
  refs_of (discard_subscription u ref subs) u' =
  if decide (u = u') then refs_of subs u ∖ {[ref]} else refs_of subs u'.
Proof.
  unfold discard_subscription, refs_of.
  destruct (subs !! u) as [refs|] eqn:Hu; simpl.
  - case_decide as Hd.
    + subst. rewrite lookup_insert_eq. reflexivity.
    + rewrite lookup_insert_ne by exact Hd. reflexivity.
  - case_decide as Hd; [|reflexivity].
    subst. rewrite Hu. simpl. symmetry. apply leibniz_equiv, subseteq_empty_difference.
    apply empty_subseteq.
Qed.

Lemma disconnect_state_role_index u m :
  role_index_consistent m -> role_index_consistent (disconnect_state u m).
Proof.
  intros Hm role u' Hin.
  rewrite roles_disconnect_state in Hin. rewrite active_disconnect_state.
  destruct (active_connections m !! u) eqn:Hu.
  - apply elem_of_difference in Hin as [Hin Hne].
    rewrite lookup_delete_ne by set_solver. eauto.
  - rewrite delete_id by exact Hu. eauto.
Qed.

Lemma disconnect_state_package_live u m :
  package_subscribers_live m -> package_subscribers_live (disconnect_state u m).
Proof.
  intros Hm u' ref Hin.
  rewrite package_disconnect_state in Hin. rewrite active_disconnect_state.
  destruct (active_connections m !! u) eqn:Hu.
  - destruct (decide (u = u')) as [->|Hne].
    + rewrite refs_of_delete_eq in Hin. set_solver.
    + rewrite refs_of_delete_ne in Hin by exact Hne.
      rewrite lookup_delete_ne by exact Hne. eauto.
  - rewrite delete_id by exact Hu. eauto.
Qed.

Lemma send_effect_mgr env message u w :
  mgr (send_effect env message u w) = mgr w \/
  mgr (send_effect env message u w) = disconnect_state u (mgr w).
Proof.
  unfold send_effect.
  destruct (active_connections (mgr w) !! u) as [ws|]; [|by left].
  destruct (send_outcome env ws message) as [[]|]; simpl; auto.
Qed.

(** Whatever [disconnect] preserves, a fan-out preserves. *)
Lemma send_all_preserves (P : ConnectionManager -> Prop) env message l :
  (forall u m, P m -> P (disconnect_state u m)) ->
  forall w, P (mgr w) -> P (mgr (send_all env message l w)).
Proof.
  intros Hd. induction l as [|a l IH]; intros w Hw; [exact Hw|].
  rewrite send_all_cons. apply IH.
  destruct (send_effect_mgr env message a w) as [-> | ->]; auto.
Qed.

(** ** What disconnect leaves behind *)

(** What [disconnect] does do, in a manager whose role index is
    consistent: the identity leaves the live map and every role set, and
    the package entry of an identity that was connected is deleted.  The
    delivery subscriptions are never touched. *)
Lemma disconnect_effect (u : Z) (m : ConnectionManager) :
  role_index_consistent m ->
  let m' := mgr_after (disconnect u) m in
  active_connections m' !! u = None /\
  (forall role, u ∉ connections_by_role m' role) /\
  (is_Some (active_connections m !! u) -> package_subscriptions m' !! u = None) /\
  delivery_subscriptions m' = delivery_subscriptions m.
Proof.
  intros Hroles. unfold mgr_after. rewrite disconnect_eq. cbn [snd mgr start].
  split; [|split; [|split]].
  - rewrite active_disconnect_state. apply lookup_delete_eq.
  - intros role. rewrite roles_disconnect_state.
    destruct (active_connections m !! u) eqn:Hu.
    + rewrite elem_of_difference, elem_of_singleton. tauto.
    + intros Hin. destruct (Hroles role u Hin) as [ws Hws]. congruence.
  - intros [ws Hws]. rewrite package_disconnect_state, Hws. apply lookup_delete_eq.
  - apply delivery_disconnect_state.
Qed.

(** C1, evaluated on the code: after [disconnect] the identity is gone
    from the live map, from every role set and from the package
    subscriptions, but its delivery subscriptions are still there, a
    later location update for delivery 7 still resolves to it, and a
    delivery ref is held for an identity without a connection. *)
Theorem disconnect_leaves_delivery_subscriptions :
  let m := after_disconnect_of_subscriber in
  active_connections m !! 1 = None /\
  (forall role, 1 ∉ connections_by_role m role) /\
  package_subscriptions m !! 1 = None /\
  refs_of (delivery_subscriptions m) 1 = {[7]} /\
  subscribed_users 7 (delivery_subscriptions m) = [1] /\
  ~ delivery_subscribers_live m.
Proof.
  repeat split.
  - intros role. apply (bool_decide_unpack _). destruct role; vm_compute; exact I.
  - intros Hlive. destruct (Hlive 1 7) as [ws Hws].
    + apply (bool_decide_unpack _). vm_compute. exact I.
    + discriminate Hws.
Qed.

(** ** Errors stay inside *)

Section Totality.

Variable env : Env.

Lemma notify_delivery_location_eq delivery_id lat lng timestamp w :
  notify_delivery_location env delivery_id lat lng timestamp w =
  (Returned tt,
   send_all env (delivery_location delivery_id lat lng timestamp)
     (subscribed_users delivery_id (delivery_subscriptions (mgr w))) w).
Proof.
  unfold notify_delivery_location, try_except, bind, get_mgr.
  destruct (subscribed_users delivery_id (delivery_subscriptions (mgr w))) as [|a l];
    [reflexivity|].
  rewrite for_each_send_eq. reflexivity.
Qed.

Lemma notify_package_update_eq package_id package_data update_type w :
  notify_package_update env package_id package_data update_type w =
  (Returned tt,
   send_all env (package_update package_id package_data update_type)
     (subscribed_users package_id (package_subscriptions (mgr w))) w).
Proof.
  unfold notify_package_update, try_except, bind, get_mgr.
  destruct (subscribed_users package_id (package_subscriptions (mgr w))) as [|a l];
    [reflexivity|].
  rewrite for_each_send_eq. reflexivity.
Qed.

Lemma broadcast_to_all_eq message w :
  broadcast_to_all env message w =
  (Returned tt, send_all env message (map_to_list (active_connections (mgr w))).*1 w).
Proof.
  unfold broadcast_to_all, try_except, bind, get_mgr.
  rewrite broadcast_to_eq. reflexivity.
Qed.

Lemma subscribe_to_package_eq u p w :
  subscribe_to_package env u p w =
  (Returned tt,
   send_effect env (package_subscribed p) u
     {| mgr := set_package_subscriptions
                 (add_subscription u p (package_subscriptions (mgr w))) (mgr w);
        trace := trace w |}).
Proof.
  unfold subscribe_to_package, try_except, bind, modify.
  rewrite send_personal_message_eq. reflexivity.
Qed.

Lemma unsubscribe_from_package_eq u p w :
  unsubscribe_from_package env u p w =
  (Returned tt,
   send_effect env (package_unsubscribed p) u
     {| mgr := set_package_subscriptions
                 (discard_subscription u p (package_subscriptions (mgr w))) (mgr w);
        trace := trace w |}).
Proof.
  unfold unsubscribe_from_package, try_except, bind, modify.
  rewrite send_personal_message_eq. reflexivity.
Qed.

Lemma subscribe_to_delivery_eq u d w :
  subscribe_to_delivery env u d w =
  (Returned tt,
   send_effect env (delivery_subscribed d) u
     {| mgr := set_delivery_subscriptions
                 (add_subscription u d (delivery_subscriptions (mgr w))) (mgr w);
        trace := trace w |}).
Proof.
  unfold subscribe_to_delivery, try_except, bind, modify.
  rewrite send_personal_message_eq. reflexivity.
Qed.

Lemma unsubscribe_from_delivery_eq u d w :
  unsubscribe_from_delivery env u d w =
  (Returned tt,
   send_effect env (delivery_unsubscribed d) u
     {| mgr := set_delivery_subscriptions
                 (discard_subscription u d (delivery_subscriptions (mgr w))) (mgr w);
        trace := trace w |}).
Proof.
  unfold unsubscribe_from_delivery, try_except, bind, modify.
  rewrite send_personal_message_eq. reflexivity.
Qed.

Lemma connect_eq websocket user w :
  connect env websocket user w =
  match accept_outcome env websocket with
  | Some e => (Raised e, {| mgr := mgr w; trace := trace w ++ [AcceptFailed websocket e] |})
  | None =>
      (Returned tt,
       send_effect env (connection_established user) (user_id user)
         {| mgr := registered env websocket user (mgr w);
            trace := trace w ++ [Accepted websocket] |})
  end.
Proof.
  unfold connect, try_except, bind at 1, websocket_accept.
  destruct (accept_outcome env websocket) as [e|]; [reflexivity|].
  unfold bind, modify, emit. simpl.
  rewrite send_personal_message_eq. reflexivity.
Qed.

End Totality.

(** C10: every public operation of the manager other than [connect]
    returns to its caller without an exception, for every manager state,
    every argument and every behaviour of the transports: the exceptions
    raised inside ([websocket.send_text] failing in any way, the missing
    ['type'] key of a message) are all caught. *)
Theorem operations_never_raise (env : Env) (m : ConnectionManager) :
  (forall u, returns (result_of (disconnect u) m)) /\
  (forall message u, returns (result_of (send_personal_message env message u) m)) /\
  (forall message role, returns (result_of (broadcast_to_role env message role) m)) /\
  (forall message, returns (result_of (broadcast_to_all env message) m)) /\
  (forall u p, returns (result_of (subscribe_to_package env u p) m)) /\
  (forall u p, returns (result_of (unsubscribe_from_package env u p) m)) /\
  (forall u d, returns (result_of (subscribe_to_delivery env u d) m)) /\
  (forall u d, returns (result_of (unsubscribe_from_delivery env u d) m)) /\
  (forall p data kind, returns (result_of (notify_package_update env p data kind) m)) /\
  (forall d lat lng ts, returns (result_of (notify_delivery_location env d lat lng ts) m)).
Proof.
  unfold result_of.
  split; [intros u; rewrite disconnect_eq; exact I|].
  repeat split; intros.
  - rewrite send_personal_message_eq. exact I.
  - rewrite broadcast_to_role_eq. exact I.
  - rewrite broadcast_to_all_eq. exact I.
  - rewrite subscribe_to_package_eq. exact I.
  - rewrite unsubscribe_from_package_eq. exact I.
  - rewrite subscribe_to_delivery_eq. exact I.
  - rewrite unsubscribe_from_delivery_eq. exact I.
  - rewrite notify_package_update_eq. exact I.
  - rewrite notify_delivery_location_eq. exact I.
Qed.

(** [connect] is the exception: a failed handshake is re-raised. *)
Example connect_reraises :
  result_of (connect {| accept_outcome := fun _ => Some RuntimeError;
                        send_outcome := fun _ _ => None;
                        running_loop := None |} (Socket 1) courier_A) init
  = Raised RuntimeError.
Proof. reflexivity. Qed.

(** ** Resolving subscribers *)

Lemma NoDup_subscribed_users ref subs : NoDup (subscribed_users ref subs).
Proof.
  unfold subscribed_users.
  eapply sublist_NoDup; [apply (NoDup_fst_map_to_list subs)|].
  apply fmap_sublist, sublist_filter.
Qed.

Lemma elem_of_subscribed_users ref subs u :
  u ∈ subscribed_users ref subs <-> ref ∈ refs_of subs u.
Proof.
  unfold subscribed_users, refs_of. rewrite list_elem_of_fmap. split.
  - intros [[u' refs] [-> [Href Hin]%list_elem_of_filter]].
    apply elem_of_map_to_list in Hin. simpl in *. rewrite Hin. exact Href.
  - intros Href. destruct (subs !! u) as [refs|] eqn:Hu; simpl in Href.
    + exists (u, refs). split; [reflexivity|].
      apply list_elem_of_filter. split; [exact Href|].
      apply elem_of_map_to_list. exact Hu.
    + set_solver.
Qed.

(** ** Sending to one identity *)

(** C6, as stated, fails: a send that fails with an exception other than
    [WebSocketDisconnect] leaves the connection registered, and the value
    handed back to the caller is the same whether the envelope was
    delivered, the send failed, or the identity was not connected. *)
Lemma send_failure_keeps_connection :
  let dead := failing_on (Socket 1) RuntimeError in
  trace_of (send_personal_message dead pong 1) only_A_connected
    = [SendFailed 1 (Socket 1) pong RuntimeError] /\
  active_connections (mgr_after (send_personal_message dead pong 1) only_A_connected) !! 1
    = Some (Socket 1) /\
  result_of (send_personal_message dead pong 1) only_A_connected = Returned tt /\
  result_of (send_personal_message healthy pong 1) only_A_connected = Returned tt /\
  result_of (send_personal_message healthy pong 1) init = Returned tt.
Proof. repeat split. Qed.

(** C6, amended: [send_personal_message] hands no result back (it
    returns [None] in every case) and never raises.  When the identity is
    not connected nothing is sent and nothing changes.  When it is, one
    send is made on its socket; a send that raises [WebSocketDisconnect]
    is followed by [disconnect] of that identity, and a send that raises
    anything else leaves the manager as it was. *)
Theorem send_personal_message_outcomes (env : Env) (message : Message) (u : Z)
    (m : ConnectionManager) :
  result_of (send_personal_message env message u) m = Returned tt /\
  match active_connections m !! u with
  | None =>
      mgr_after (send_personal_message env message u) m = m /\
      trace_of (send_personal_message env message u) m = []
  | Some ws =>
      match send_outcome env ws message with
      | None =>
          mgr_after (send_personal_message env message u) m = m /\
          trace_of (send_personal_message env message u) m = [Sent u ws message]
      | Some WebSocketDisconnect =>
          mgr_after (send_personal_message env message u) m = mgr_after (disconnect u) m /\
          trace_of (send_personal_message env message u) m
            = [SendFailed u ws message WebSocketDisconnect]
      | Some e =>
          mgr_after (send_personal_message env message u) m = m /\
          trace_of (send_personal_message env message u) m = [SendFailed u ws message e]
      end
  end.
Proof.
  unfold result_of, mgr_after, trace_of.
  rewrite send_personal_message_eq. split; [reflexivity|].
  unfold send_effect, start; simpl.
  destruct (active_connections m !! u) as [ws|]; [|split; reflexivity].
  destruct (send_outcome env ws message) as [[]|]; split; reflexivity.
Qed.

(** ** Role broadcast *)

Section RoleBroadcast.

Variable env : Env.
Variable message : Message.
Variable role : UserRole.
Variable m : ConnectionManager.

Let t := trace_of (broadcast_to_role env message role) m.

Lemma broadcast_to_role_trace :
  t = flat_map (fun u => send_events env message u m)
        (elements (connections_by_role m role)).
Proof.
  unfold t, trace_of. rewrite broadcast_to_role_eq. simpl.
  rewrite send_all_trace by apply NoDup_elements. reflexivity.
Qed.

Lemma broadcast_to_role_deliveries u :
  deliveries_to u t =
  if decide (u ∈ connections_by_role m role)
  then deliveries_to u (send_events env message u m) else [].
Proof.
  rewrite broadcast_to_role_trace, deliveries_to_fan_out by apply NoDup_elements.
  destruct (decide (u ∈ connections_by_role m role)) as [Hin|Hnin].
  - rewrite decide_True by (apply elem_of_elements; exact Hin). reflexivity.
  - rewrite decide_False; [reflexivity|]. rewrite elem_of_elements. exact Hnin.
Qed.

Lemma broadcast_to_role_attempts u :
  attempts_for u t =
  if decide (u ∈ connections_by_role m role)
  then attempts_for u (send_events env message u m) else 0%nat.
Proof.
  rewrite broadcast_to_role_trace, attempts_for_fan_out by apply NoDup_elements.
  destruct (decide (u ∈ connections_by_role m role)) as [Hin|Hnin].
  - rewrite decide_True by (apply elem_of_elements; exact Hin). reflexivity.
  - rewrite decide_False; [reflexivity|]. rewrite elem_of_elements. exact Hnin.
Qed.

End RoleBroadcast.


(** C7: a role broadcast returns normally and tries every identity of
    its snapshot exactly once on the socket the identity has, whatever
    happens to the sends made for the others: an identity whose own send
    succeeds receives the envelope, one whose send fails or that has no
    connection receives nothing, and nobody is tried a second time. *)
Theorem broadcast_to_role_isolates_failures (env : Env) (message : Message)
    (role : UserRole) (m : ConnectionManager) (u : Z) :
  let t := trace_of (broadcast_to_role env message role) m in
  returns (result_of (broadcast_to_role env message role) m) /\
  (u ∉ connections_by_role m role -> attempts_for u t = 0%nat /\ deliveries_to u t = []) /\
  (u ∈ connections_by_role m role ->
   match active_connections m !! u with
   | None => attempts_for u t = 0%nat /\ deliveries_to u t = []
   | Some ws =>
       attempts_for u t = 1%nat /\
       deliveries_to u t =
         match send_outcome env ws message with
         | None => [message]
         | Some _ => []
         end
   end).
Proof.
  simpl. split; [|split].
  - unfold result_of. rewrite broadcast_to_role_eq. exact I.
  - intros Hnin. rewrite broadcast_to_role_attempts, broadcast_to_role_deliveries.
    rewrite !decide_False by exact Hnin. split; reflexivity.
  - intros Hin. rewrite broadcast_to_role_attempts, broadcast_to_role_deliveries.
    rewrite !decide_True by exact Hin. unfold send_events.
    destruct (active_connections m !! u) as [ws|]; [|split; reflexivity].
    destruct (send_outcome env ws message); simpl;
      rewrite ?decide_True by reflexivity; split; reflexivity.
Qed.

(** ** Reachable managers *)

(** Invariants that only read the live map, the role index and the loop
    handle, and that [disconnect] and the registration step of [connect]
    keep, hold in every reachable manager. *)
Section ReachableInvariant.

Variable P : ConnectionManager -> Prop.
Hypothesis P_init : P init.
Hypothesis P_disconnect : forall u m, P m -> P (disconnect_state u m).
Hypothesis P_registered : forall env ws user m, P m -> P (registered env ws user m).
Hypothesis P_package : forall p m, P m -> P (set_package_subscriptions p m).
Hypothesis P_delivery : forall d m, P m -> P (set_delivery_subscriptions d m).

Lemma send_effect_preserves env message u w :
  P (mgr w) -> P (mgr (send_effect env message u w)).
Proof.
  intros Hw. destruct (send_effect_mgr env message u w) as [-> | ->]; auto.
Qed.

Lemma reachable_invariant m : reachable m -> P m.
Proof.
  induction 1 as [|env ws user m _ IH|u m _ IH|env message u m _ IH
                  |env message role m _ IH|env message m _ IH
                  |env u p m _ IH|env u p m _ IH|env u d m _ IH|env u d m _ IH
                  |env p data kind m _ IH|env d lat lng ts m _ IH];
    unfold mgr_after.
  - exact P_init.
  - rewrite connect_eq. destruct (accept_outcome env ws); [exact IH|].
    cbn [snd]. apply send_effect_preserves. simpl. auto.
  - rewrite disconnect_eq. simpl. auto.
  - rewrite send_personal_message_eq. cbn [snd]. apply send_effect_preserves. exact IH.
  - rewrite broadcast_to_role_eq. cbn [snd]. apply send_all_preserves; auto.
  - rewrite broadcast_to_all_eq. cbn [snd]. apply send_all_preserves; auto.
  - rewrite subscribe_to_package_eq. cbn [snd]. apply send_effect_preserves. simpl. auto.
  - rewrite unsubscribe_from_package_eq. cbn [snd]. apply send_effect_preserves. simpl. auto.
  - rewrite subscribe_to_delivery_eq. cbn [snd]. apply send_effect_preserves. simpl. auto.
  - rewrite unsubscribe_from_delivery_eq. cbn [snd]. apply send_effect_preserves. simpl. auto.
  - rewrite notify_package_update_eq. cbn [snd]. apply send_all_preserves; auto.
  - rewrite notify_delivery_location_eq. cbn [snd]. apply send_all_preserves; auto.
Qed.

End ReachableInvariant.

Lemma registered_active env ws user m :
  active_connections (registered env ws user m) =
  <[user_id user := ws]> (active_connections m).
Proof.
  unfold registered. simpl.
  destruct (package_subscriptions m !! user_id user); reflexivity.
Qed.

Lemma registered_roles env ws user m role :
  connections_by_role (registered env ws user m) role =
  add_to_role (user_role user) (user_id user) (connections_by_role m) role.
Proof.
  unfold registered. simpl.
  destruct (package_subscriptions m !! user_id user); reflexivity.
Qed.

Lemma registered_delivery env ws user m :
  delivery_subscriptions (registered env ws user m) = delivery_subscriptions m.
Proof.
  unfold registered. simpl.
  destruct (package_subscriptions m !! user_id user); reflexivity.
Qed.

Lemma registered_package_refs env ws user m u :
  refs_of (package_subscriptions (registered env ws user m)) u =
  refs_of (package_subscriptions m) u.
Proof.
  unfold registered, refs_of. simpl.
  destruct (package_subscriptions m !! user_id user) eqn:Hp; simpl; [reflexivity|].
  destruct (decide (user_id user = u)) as [<-|Hne].
  - rewrite lookup_insert_eq, Hp. reflexivity.
  - rewrite lookup_insert_ne by exact Hne. reflexivity.
Qed.

Lemma registered_role_index env ws user m :
  role_index_consistent m -> role_index_consistent (registered env ws user m).
Proof.
  intros Hm role u Hin.
  rewrite registered_roles in Hin. rewrite registered_active.
  apply lookup_insert_is_Some'.
  unfold add_to_role in Hin. case_decide.
  - apply elem_of_union in Hin as [Hin|Hin]; [right; eauto|].
    left. apply elem_of_singleton in Hin. congruence.
  - right. eauto.
Qed.

Lemma registered_loop env ws user m : loop_cleared_when_idle (registered env ws user m).
Proof.
  intros Hempty. rewrite registered_active in Hempty.
  destruct (insert_non_empty (active_connections m) (user_id user) ws Hempty).
Qed.

Theorem reachable_role_index_consistent m : reachable m -> role_index_consistent m.
Proof.
  apply reachable_invariant.
  - intros role u Hin. set_solver.
  - apply disconnect_state_role_index.
  - apply registered_role_index.
  - intros p m0 Hm0. exact Hm0.
  - intros d m0 Hm0. exact Hm0.
Qed.

Theorem reachable_loop_cleared_when_idle m : reachable m -> loop_cleared_when_idle m.
Proof.
  apply reachable_invariant.
  - intros _. reflexivity.
  - apply loop_disconnect_state.
  - intros env ws user m0 _. apply registered_loop.
  - intros p m0 Hm0. exact Hm0.
  - intros d m0 Hm0. exact Hm0.
Qed.

(** ** Broadcast scenarios *)

Lemma send_effect_mgr_kept env message u ws w :
  active_connections (mgr w) !! u = Some ws ->
  send_outcome env ws message <> Some WebSocketDisconnect ->
  mgr (send_effect env message u w) = mgr w.
Proof.
  intros Hu Hok. unfold send_effect. rewrite Hu.
  destruct (send_outcome env ws message) as [[]|]; try reflexivity. congruence.
Qed.

Lemma two_couriers_and_sender_reachable : reachable two_couriers_and_sender.
Proof.
  unfold two_couriers_and_sender. cbv [run_all].
  apply reach_connect, reach_connect, reach_connect, reach_init.
Qed.




Lemma broadcast_to_role_isolates_failures_witness :
  let dead := failing_on (Socket 1) WebSocketDisconnect in
  let t := trace_of (broadcast_to_role dead pong COURIER) two_couriers_and_sender in
  (attempts_for 1 t = 1%nat /\ deliveries_to 1 t = []) /\
  (attempts_for 3 t = 1%nat /\ deliveries_to 3 t = [pong]) /\
  (attempts_for 2 t = 0%nat /\ deliveries_to 2 t = []).
Proof.
  intros dead t.
  assert (H1 : 1 ∈ connections_by_role two_couriers_and_sender COURIER)
    by (apply (bool_decide_unpack _); vm_compute; exact I).
  assert (H3 : 3 ∈ connections_by_role two_couriers_and_sender COURIER)
    by (apply (bool_decide_unpack _); vm_compute; exact I).
  assert (H2 : 2 ∉ connections_by_role two_couriers_and_sender COURIER)
    by (apply (bool_decide_unpack _); vm_compute; exact I).
  split; [|split].
  - exact (proj2 (proj2 (broadcast_to_role_isolates_failures dead pong COURIER
                           two_couriers_and_sender 1)) H1).
  - exact (proj2 (proj2 (broadcast_to_role_isolates_failures dead pong COURIER
                           two_couriers_and_sender 3)) H3).
  - exact (proj1 (proj2 (broadcast_to_role_isolates_failures dead pong COURIER
                           two_couriers_and_sender 2)) H2).
Defined.

(** ** Location updates *)

Lemma notify_delivery_location_deliveries env m d lat lng ts u :
  deliveries_to u (trace_of (notify_delivery_location env d lat lng ts) m) =
  if decide (d ∈ refs_of (delivery_subscriptions m) u)
  then deliveries_to u (send_events env (delivery_location d lat lng ts) u m)
  else [].
Proof.
  unfold trace_of. rewrite notify_delivery_location_eq. cbn [snd].
  rewrite send_all_trace by apply NoDup_subscribed_users. simpl.
  rewrite deliveries_to_fan_out by apply NoDup_subscribed_users.
  destruct (decide (d ∈ refs_of (delivery_subscriptions m) u)) as [Hin|Hnin].
  - rewrite decide_True by (apply elem_of_subscribed_users; exact Hin). reflexivity.
  - rewrite decide_False; [reflexivity|]. rewrite elem_of_subscribed_users. exact Hnin.
Qed.

(** C5: with A and B connected and only A subscribed to delivery 7, a
    location update for delivery 7 at (12.34, 56.78) puts exactly one
    [delivery_location] envelope with those coordinates on A's socket and
    nothing on B's.  In general, one location update delivers exactly one
    copy to every identity that is subscribed to the delivery and whose
    socket takes the send, and nothing to an identity that is not
    subscribed. *)
Theorem delivery_location_once_per_subscriber :
  (let t := trace_of (notify_delivery_location healthy 7 12.34 56.78 None)
              A_subscribed_to_delivery_7 in
   deliveries_to 1 t =
     [[("type", JStr "delivery_location");
       ("delivery_id", JInt 7);
       ("lat", JFloat 12.34);
       ("lng", JFloat 56.78);
       ("timestamp", JStr "2024-01-01T00:00:00Z")]] /\
   deliveries_to 2 t = []) /\
  (forall env m d lat lng ts u,
     let t := trace_of (notify_delivery_location env d lat lng ts) m in
     (d ∉ refs_of (delivery_subscriptions m) u -> deliveries_to u t = []) /\
     (forall ws,
        d ∈ refs_of (delivery_subscriptions m) u ->
        active_connections m !! u = Some ws ->
        send_outcome env ws (delivery_location d lat lng ts) = None ->
        deliveries_to u t = [delivery_location d lat lng ts])).
Proof.
  split.
  - split; vm_compute; reflexivity.
  - intros env m d lat lng ts u. simpl. split.
    + intros Hnin. rewrite notify_delivery_location_deliveries.
      rewrite decide_False by exact Hnin. reflexivity.
    + intros ws Hin Hws Hok. rewrite notify_delivery_location_deliveries.
      rewrite decide_True by exact Hin.
      unfold send_events. rewrite Hws, Hok. simpl.
      rewrite decide_True by reflexivity. reflexivity.
Qed.

Lemma delivery_location_once_per_subscriber_witness :
  let t := trace_of (notify_delivery_location healthy 9 1.5 2.5 None)
             C_and_D_subscribed_to_delivery_9 in
  deliveries_to 3 t = [delivery_location 9 1.5 2.5 None] /\
  deliveries_to 4 t = [delivery_location 9 1.5 2.5 None] /\
  deliveries_to 1 t = [].
Proof.
  intros t.
  pose proof (proj2 delivery_location_once_per_subscriber healthy
                C_and_D_subscribed_to_delivery_9 9 1.5%float 2.5%float None) as H.
  assert (H3 : 9 ∈ refs_of (delivery_subscriptions C_and_D_subscribed_to_delivery_9) 3)
    by (apply (bool_decide_unpack _); vm_compute; exact I).
  assert (H4 : 9 ∈ refs_of (delivery_subscriptions C_and_D_subscribed_to_delivery_9) 4)
    by (apply (bool_decide_unpack _); vm_compute; exact I).
  assert (H1 : 9 ∉ refs_of (delivery_subscriptions C_and_D_subscribed_to_delivery_9) 1)
    by (apply (bool_decide_unpack _); vm_compute; exact I).
  split; [|split].
  - exact (proj2 (H 3) (Socket 3) H3 eq_refl eq_refl).
  - exact (proj2 (H 4) (Socket 4) H4 eq_refl eq_refl).
  - exact (proj1 (H 1) H1).
Defined.

(** ** The hand-off with nobody connected *)

Lemma send_effect_nobody env message u w :
  active_connections (mgr w) = ∅ -> send_effect env message u w = w.
Proof.
  intros Hempty. unfold send_effect. rewrite Hempty, lookup_empty. reflexivity.
Qed.

Lemma send_all_nobody env message l : forall w,
  active_connections (mgr w) = ∅ -> send_all env message l w = w.
Proof.
  induction l as [|a l IH]; intros w Hempty; [reflexivity|].
  rewrite send_all_cons, send_effect_nobody by exact Hempty. apply IH, Hempty.
Qed.

(** C3, as stated, fails: with no connection and no loop handle, a caller
    that is itself inside a running event loop gets the notification
    queued on that loop as a task, not dropped; once A has connected and
    subscribed to delivery 7, running the queued task delivers the
    envelope to A. *)
Lemma location_update_queued_on_caller_loop :
  active_connections init = ∅ /\ loop init = None /\
  match fst (update_location_notify inside_running_loop healthy 7 12.34 56.78 (start init)) with
  | TaskOnCallerLoop l task =>
      l = Loop 0 /\
      deliveries_to 1 (trace_of (task healthy) A_subscribed_to_delivery_7)
        = [delivery_location 7 12.34 56.78 None]
  | _ => False
  end.
Proof.
  split; [reflexivity|]. split; [reflexivity|].
  split; [reflexivity|]. vm_compute. reflexivity.
Qed.

(** C3, amended: when no connection is live (and so no loop handle is
    held), the hand-off of a location update comes back without an
    exception, puts nothing on any socket and leaves the manager as it
    was.  It is dropped outright only when the calling thread has no
    event loop.  With an idle loop in the calling thread the notification
    runs at once and delivers nothing; with a running loop it is queued
    on that loop as a task, and the task delivers nothing and changes
    nothing if still no connection is live when it runs. *)
Theorem update_location_notify_without_connections (sched : Scheduler) (env : Env)
    (delivery_id : Z) (lat lng : float) (m : ConnectionManager) :
  active_connections m = ∅ ->
  loop_cleared_when_idle m ->
  snd (update_location_notify sched env delivery_id lat lng (start m)) = start m /\
  match fst (update_location_notify sched env delivery_id lat lng (start m)) with
  | OnServerLoop _ _ => False
  | TaskOnCallerLoop l task =>
      caller_loop sched = CurrentLoopRunning l /\
      forall env' m', active_connections m' = ∅ ->
                      task env' (start m') = (Returned tt, start m')
  | RanInline => exists l, caller_loop sched = CurrentLoopIdle l
  | NotScheduled => exists e, caller_loop sched = NoCurrentLoop e
  end.
Proof.
  intros Hempty Hloop. unfold update_location_notify. simpl.
  rewrite (Hloop Hempty).
  destruct (caller_loop sched) as [e|l|l]; simpl.
  - split; [reflexivity|]. exists e. reflexivity.
  - split; [reflexivity|]. split; [reflexivity|].
    intros env' m' Hm'. rewrite notify_delivery_location_eq.
    rewrite send_all_nobody by exact Hm'. reflexivity.
  - rewrite notify_delivery_location_eq. cbn [snd].
    rewrite send_all_nobody by exact Hempty.
    split; [reflexivity|]. exists l. reflexivity.
Qed.

Lemma update_location_notify_without_connections_witness :
  snd (update_location_notify inside_running_loop healthy 7 12.34 56.78
         (start after_disconnect_of_subscriber))
  = start after_disconnect_of_subscriber.
Proof.
  refine (proj1 (update_location_notify_without_connections inside_running_loop healthy
                   7 12.34%float 56.78%float after_disconnect_of_subscriber _ _)).
  - vm_compute. reflexivity.
  - intros _. vm_compute. reflexivity.
Defined.

(** ** Subscriptions and liveness *)

(** C2, as stated, fails: [subscribe_to_package] for an identity that is
    not connected is not a no-op; it creates the identity's entry and
    puts the ref in it. *)
Lemma subscribe_without_connection_adds_entry :
  let m := mgr_after (subscribe_to_package healthy 1 5) init in
  active_connections m !! 1 = None /\
  refs_of (package_subscriptions m) 1 = {[5]} /\
  package_subscribers_live init /\
  ~ package_subscribers_live m.
Proof.
  repeat split.
  - intros u ref Hin. unfold refs_of in Hin. simpl in Hin.
    rewrite lookup_empty in Hin. set_solver.
  - intros Hlive. destruct (Hlive 1 5) as [ws Hws].
    + apply (bool_decide_unpack _). vm_compute. exact I.
    + discriminate Hws.
Qed.

Section PackageLiveness.

Variable env : Env.
Variable m : ConnectionManager.
Hypothesis Hlive : package_subscribers_live m.

Lemma connect_package_live ws user :
  package_subscribers_live (mgr_after (connect env ws user) m).
Proof.
  unfold mgr_after. rewrite connect_eq.
  destruct (accept_outcome env ws); [exact Hlive|]. cbn [snd].
  apply (send_effect_preserves _ disconnect_state_package_live). simpl.
  intros u ref Hin. rewrite registered_package_refs in Hin.
  rewrite registered_active. apply lookup_insert_is_Some'. right. eauto.
Qed.

Lemma disconnect_package_live u :
  package_subscribers_live (mgr_after (disconnect u) m).
Proof. apply disconnect_state_package_live, Hlive. Qed.

Lemma subscribe_to_package_live u p :
  is_Some (active_connections m !! u) ->
  package_subscribers_live (mgr_after (subscribe_to_package env u p) m).
Proof.
  intros Hu. unfold mgr_after. rewrite subscribe_to_package_eq. cbn [snd].
  apply (send_effect_preserves _ disconnect_state_package_live). simpl.
  intros u' ref Hin. simpl in Hin. rewrite refs_of_add_subscription in Hin.
  case_decide; [subst; exact Hu|eauto].
Qed.

Lemma unsubscribe_from_package_live u p :
  package_subscribers_live (mgr_after (unsubscribe_from_package env u p) m).
Proof.
  unfold mgr_after. rewrite unsubscribe_from_package_eq. cbn [snd].
  apply (send_effect_preserves _ disconnect_state_package_live). simpl.
  intros u' ref Hin. simpl in Hin. rewrite refs_of_discard_subscription in Hin.
  case_decide; [subst; apply elem_of_difference in Hin as [Hin _]|]; eauto.
Qed.

Lemma subscribe_to_delivery_package_live u d :
  package_subscribers_live (mgr_after (subscribe_to_delivery env u d) m).
Proof.
  unfold mgr_after. rewrite subscribe_to_delivery_eq. cbn [snd].
  apply (send_effect_preserves _ disconnect_state_package_live). exact Hlive.
Qed.

Lemma unsubscribe_from_delivery_package_live u d :
  package_subscribers_live (mgr_after (unsubscribe_from_delivery env u d) m).
Proof.
  unfold mgr_after. rewrite unsubscribe_from_delivery_eq. cbn [snd].
  apply (send_effect_preserves _ disconnect_state_package_live). exact Hlive.
Qed.

End PackageLiveness.

Lemma subscribe_to_delivery_not_connected env m u d :
  active_connections m !! u = None ->
  mgr_after (subscribe_to_delivery env u d) m =
  set_delivery_subscriptions (add_subscription u d (delivery_subscriptions m)) m.
Proof.
  intros Hu. unfold mgr_after. rewrite subscribe_to_delivery_eq. cbn [snd].
  unfold send_effect. simpl. rewrite Hu. reflexivity.
Qed.

Lemma subscribe_to_package_not_connected env m u p :
  active_connections m !! u = None ->
  mgr_after (subscribe_to_package env u p) m =
  set_package_subscriptions (add_subscription u p (package_subscriptions m)) m.
Proof.
  intros Hu. unfold mgr_after. rewrite subscribe_to_package_eq. cbn [snd].
  unfold send_effect. simpl. rewrite Hu. reflexivity.
Qed.

(** C2, amended: in the package namespace, no ref is held for an
    identity without a live connection, and [connect], [disconnect],
    both [unsubscribe] operations and [subscribe_to_delivery] keep it so;
    [subscribe_to_package] keeps it so when the identity is connected.
    For an identity that is not connected neither [subscribe_to_package]
    nor [subscribe_to_delivery] is a no-op: each adds the ref to the
    identity's set of its namespace, creating the set when missing, and
    the identity stays unconnected. *)
Theorem package_liveness_preserved (env : Env) (m : ConnectionManager) :
  package_subscribers_live m ->
  (forall ws user, package_subscribers_live (mgr_after (connect env ws user) m)) /\
  (forall u, package_subscribers_live (mgr_after (disconnect u) m)) /\
  (forall u p, package_subscribers_live (mgr_after (unsubscribe_from_package env u p) m)) /\
  (forall u d, package_subscribers_live (mgr_after (unsubscribe_from_delivery env u d) m)) /\
  (forall u d, package_subscribers_live (mgr_after (subscribe_to_delivery env u d) m)) /\
  (forall u p, is_Some (active_connections m !! u) ->
               package_subscribers_live (mgr_after (subscribe_to_package env u p) m)) /\
  (forall u p, active_connections m !! u = None ->
               let m' := mgr_after (subscribe_to_package env u p) m in
               active_connections m' !! u = None /\
               refs_of (package_subscriptions m') u = refs_of (package_subscriptions m) u ∪ {[p]}) /\
  (forall u d, active_connections m !! u = None ->
               let m' := mgr_after (subscribe_to_delivery env u d) m in
               active_connections m' !! u = None /\
               refs_of (delivery_subscriptions m') u = refs_of (delivery_subscriptions m) u ∪ {[d]}).
Proof.
  intros Hlive. repeat split.
  - intros. apply connect_package_live, Hlive.
  - intros. apply disconnect_package_live, Hlive.
  - intros. apply unsubscribe_from_package_live, Hlive.
  - intros. apply unsubscribe_from_delivery_package_live, Hlive.
  - intros. apply subscribe_to_delivery_package_live, Hlive.
  - intros. apply subscribe_to_package_live; assumption.
  - rewrite subscribe_to_package_not_connected by assumption. assumption.
  - rewrite subscribe_to_package_not_connected by assumption. simpl.
    rewrite refs_of_add_subscription, decide_True by reflexivity. reflexivity.
  - rewrite subscribe_to_delivery_not_connected by assumption. assumption.
  - rewrite subscribe_to_delivery_not_connected by assumption. simpl.
    rewrite refs_of_add_subscription, decide_True by reflexivity. reflexivity.
Qed.

Lemma package_liveness_preserved_witness :
  package_subscribers_live
    (mgr_after (subscribe_to_package healthy 1 5) only_A_connected) /\
  package_subscribers_live (mgr_after (disconnect 1) only_A_connected).
Proof.
  assert (Hlive : package_subscribers_live only_A_connected).
  { intros u ref Hin. destruct (decide (u = 1)) as [->|Hne].
    - exists (Socket 1). reflexivity.
    - exfalso. revert Hin. unfold refs_of.
      replace (package_subscriptions only_A_connected) with (<[1 := ∅]> (∅ : gmap Z (gset Z)))
        by reflexivity.
      rewrite lookup_insert_ne by congruence. rewrite lookup_empty. simpl.
      apply not_elem_of_empty. }
  destruct (package_liveness_preserved healthy only_A_connected Hlive)
    as (_ & Hd & _ & _ & _ & Hs & _).
  split; [apply Hs; exists (Socket 1); reflexivity|apply Hd].
Defined.

(** ** Connecting *)

(** C8, as stated, fails: when A, connected and subscribed, connects
    again on a second socket, [connect] does not empty the subscriptions
    A already has, in either namespace; and when the welcome message is
    cut by a disconnect the identity is not in the live map afterwards. *)
Lemma connect_keeps_earlier_subscriptions :
  let m := mgr_after (connect healthy (Socket 9) courier_A) A_subscribed_to_both in
  active_connections m !! 1 = Some (Socket 9) /\
  refs_of (package_subscriptions m) 1 = {[5]} /\
  refs_of (delivery_subscriptions m) 1 = {[7]} /\
  refs_of (package_subscriptions m) 1 <> ∅ /\
  active_connections
    (mgr_after (connect (failing_on (Socket 1) WebSocketDisconnect) (Socket 1) courier_A) init)
    !! 1 = None.
Proof.
  cbv zeta.
  split; [vm_compute; reflexivity|].
  split; [vm_compute; reflexivity|].
  split; [vm_compute; reflexivity|].
  split; [|vm_compute; reflexivity].
  intros Hempty. apply (not_elem_of_empty (C := gset Z) 5).
  rewrite <- Hempty. apply (bool_decide_unpack _). vm_compute. exact I.
Qed.

(** C8, amended: when the handshake succeeds and the welcome message is
    not cut by a disconnect, [connect] returns with the identity in the
    live map on the new socket and in the set of its role; the identity
    has a package subscription set afterwards, holding exactly the refs
    it held before (none when it had no set), and the delivery
    subscriptions are left as they were. *)
Theorem connect_registers (env : Env) (ws : WebSocket) (user : User)
    (m : ConnectionManager) :
  accept_outcome env ws = None ->
  send_outcome env ws (connection_established user) <> Some WebSocketDisconnect ->
  let m' := mgr_after (connect env ws user) m in
  result_of (connect env ws user) m = Returned tt /\
  active_connections m' !! user_id user = Some ws /\
  user_id user ∈ connections_by_role m' (user_role user) /\
  is_Some (package_subscriptions m' !! user_id user) /\
  refs_of (package_subscriptions m') (user_id user)
    = refs_of (package_subscriptions m) (user_id user) /\
  delivery_subscriptions m' = delivery_subscriptions m.
Proof.
  intros Hacc Hsend. simpl. unfold result_of, mgr_after.
  rewrite connect_eq, Hacc. cbn [fst snd].
  rewrite (send_effect_mgr_kept env _ (user_id user) ws); [|simpl|exact Hsend].
  2:{ rewrite registered_active. apply lookup_insert_eq. }
  simpl. split; [reflexivity|]. split; [|split; [|split; [|split]]].
  - rewrite registered_active. apply lookup_insert_eq.
  - rewrite registered_roles. unfold add_to_role.
    rewrite decide_True by reflexivity. set_solver.
  - unfold registered. simpl.
    destruct (package_subscriptions m !! user_id user) eqn:Hp; simpl.
    + rewrite Hp. eauto.
    + rewrite lookup_insert_eq. eauto.
  - apply registered_package_refs.
  - apply registered_delivery.
Qed.

Lemma connect_registers_witness :
  active_connections (mgr_after (connect healthy (Socket 9) courier_A) A_subscribed_to_both)
    !! 1 = Some (Socket 9).
Proof.
  refine (proj1 (proj2 (connect_registers healthy (Socket 9) courier_A
                          A_subscribed_to_both eq_refl _))).
  discriminate.
Defined.

(** ** Subscribe, then unsubscribe *)

Lemma round_trip_set (refs : gset Z) (ref : Z) :
  (refs ∪ {[ref]}) ∖ {[ref]} = refs ∖ {[ref]}.
Proof.
  apply leibniz_equiv. intros x.
  rewrite !elem_of_difference, elem_of_union. tauto.
Qed.

Lemma round_trip_set_fresh (refs : gset Z) (ref : Z) :
  ref ∉ refs -> (refs ∪ {[ref]}) ∖ {[ref]} = refs.
Proof.
  intros Hnin. apply leibniz_equiv. intros x.
  rewrite elem_of_difference, elem_of_union, elem_of_singleton.
  split; [tauto|]. intros Hx. split; [tauto|]. congruence.
Qed.

(** C9, as stated, fails: when the ref was already in the set,
    subscribing again and unsubscribing removes it. *)
Lemma round_trip_removes_earlier_subscription :
  let before := A_subscribed_to_package_5 in
  let after := run_all [subscribe_to_package healthy 1 5;
                        unsubscribe_from_package healthy 1 5] before in
  active_connections before !! 1 = Some (Socket 1) /\
  refs_of (package_subscriptions before) 1 = {[5]} /\
  refs_of (package_subscriptions after) 1 = ∅ /\
  refs_of (package_subscriptions after) 1 <> refs_of (package_subscriptions before) 1.
Proof.
  repeat split.
  intros Heq. apply (not_elem_of_empty (C := gset Z) 5).
  change (∅ : gset Z) with
    (refs_of (package_subscriptions
                (run_all [subscribe_to_package healthy 1 5;
                          unsubscribe_from_package healthy 1 5]
                   A_subscribed_to_package_5)) 1).
  rewrite Heq. apply (bool_decide_unpack _). vm_compute. exact I.
Qed.

(** C9, amended: for a connected identity, [subscribe] followed by
    [unsubscribe] of the same ref leaves the identity's set as it was
    with that ref taken out, so it is back in its earlier state exactly
    when the ref was not in the set before.  In the package namespace
    this needs that neither confirmation is cut by a disconnect (which
    deletes the identity's package set); in the delivery namespace it
    holds whatever the transport does. *)
Theorem subscribe_unsubscribe_round_trip (env1 env2 : Env) (m : ConnectionManager)
    (u : Z) (ws : WebSocket) (ref : Z) :
  active_connections m !! u = Some ws ->
  (send_outcome env1 ws (package_subscribed ref) <> Some WebSocketDisconnect ->
   send_outcome env2 ws (package_unsubscribed ref) <> Some WebSocketDisconnect ->
   let m' := mgr_after (unsubscribe_from_package env2 u ref)
               (mgr_after (subscribe_to_package env1 u ref) m) in
   refs_of (package_subscriptions m') u = refs_of (package_subscriptions m) u ∖ {[ref]} /\
   (ref ∉ refs_of (package_subscriptions m) u ->
    refs_of (package_subscriptions m') u = refs_of (package_subscriptions m) u)) /\
  (let m' := mgr_after (unsubscribe_from_delivery env2 u ref)
               (mgr_after (subscribe_to_delivery env1 u ref) m) in
   refs_of (delivery_subscriptions m') u = refs_of (delivery_subscriptions m) u ∖ {[ref]} /\
   (ref ∉ refs_of (delivery_subscriptions m) u ->
    refs_of (delivery_subscriptions m') u = refs_of (delivery_subscriptions m) u)).
Proof.
  intros Hu. split.
  - intros Hs1 Hs2. simpl.
    assert (Hafter :
      refs_of (package_subscriptions
                 (mgr_after (unsubscribe_from_package env2 u ref)
                    (mgr_after (subscribe_to_package env1 u ref) m))) u
      = (refs_of (package_subscriptions m) u ∪ {[ref]}) ∖ {[ref]}).
    { unfold mgr_after. rewrite subscribe_to_package_eq. cbn [snd].
      rewrite (send_effect_mgr_kept env1 _ u ws) by (simpl; assumption).
      rewrite unsubscribe_from_package_eq. cbn [snd].
      rewrite (send_effect_mgr_kept env2 _ u ws) by (simpl; assumption).
      simpl. rewrite refs_of_discard_subscription, decide_True by reflexivity.
      rewrite refs_of_add_subscription, decide_True by reflexivity. reflexivity. }
    rewrite Hafter. split; [apply round_trip_set|apply round_trip_set_fresh].
  - simpl.
    assert (Hafter :
      refs_of (delivery_subscriptions
                 (mgr_after (unsubscribe_from_delivery env2 u ref)
                    (mgr_after (subscribe_to_delivery env1 u ref) m))) u
      = (refs_of (delivery_subscriptions m) u ∪ {[ref]}) ∖ {[ref]}).
    { unfold mgr_after. rewrite unsubscribe_from_delivery_eq. cbn [snd].
      rewrite send_effect_delivery. simpl.
      rewrite refs_of_discard_subscription, decide_True by reflexivity.
      rewrite subscribe_to_delivery_eq. cbn [snd].
      rewrite send_effect_delivery. simpl.
      rewrite refs_of_add_subscription, decide_True by reflexivity. reflexivity. }
    rewrite Hafter. split; [apply round_trip_set|apply round_trip_set_fresh].
Qed.

Lemma subscribe_unsubscribe_round_trip_witness :
  let m' := mgr_after (unsubscribe_from_package healthy 1 6)
              (mgr_after (subscribe_to_package healthy 1 6) A_subscribed_to_package_5) in
  refs_of (package_subscriptions m') 1
    = refs_of (package_subscriptions A_subscribed_to_package_5) 1.
Proof.
  intros m'.
  destruct (subscribe_unsubscribe_round_trip healthy healthy A_subscribed_to_package_5
              1 (Socket 1) 6 eq_refl) as [Hpkg _].
  apply Hpkg; [discriminate|discriminate|].
  apply (bool_decide_unpack _). vm_compute. exact I.
Defined.

(** * Further properties of the code *)

(** ** Registry invariants *)

Lemma disconnect_state_live_has_role u m :
  live_has_role m -> live_has_role (disconnect_state u m).
Proof.
  intros Hm u' [ws Hu']. rewrite active_disconnect_state in Hu'.
  apply lookup_delete_Some in Hu' as [Hne Hu'].
  destruct (Hm u') as [role Hrole]; [eauto|].
  exists role. rewrite roles_disconnect_state.
  destruct (active_connections m !! u); [|exact Hrole].
  apply elem_of_difference. split; [exact Hrole|].
  rewrite elem_of_singleton. congruence.
Qed.

Lemma registered_live_has_role env ws user m :
  live_has_role m -> live_has_role (registered env ws user m).
Proof.
  intros Hm u' Hu'. rewrite registered_active in Hu'.
  destruct (decide (user_id user = u')) as [<-|Hne].
  - exists (user_role user). rewrite registered_roles. unfold add_to_role.
    rewrite decide_True by reflexivity.
    apply elem_of_union. right. apply elem_of_singleton. reflexivity.
  - rewrite lookup_insert_ne in Hu' by exact Hne.
    destruct (Hm u' Hu') as [role Hrole]. exists role.
    rewrite registered_roles. unfold add_to_role.
    case_decide; [apply elem_of_union; left|]; exact Hrole.
Qed.

Lemma reachable_live_has_role m : reachable m -> live_has_role m.
Proof.
  apply reachable_invariant.
  - intros u [ws Hws]. simpl in Hws. rewrite lookup_empty in Hws. discriminate.
  - apply disconnect_state_live_has_role.
  - apply registered_live_has_role.
  - intros p m0 Hm0. exact Hm0.
  - intros d m0 Hm0. exact Hm0.
Qed.

(** X1: in every manager the program can reach, the role index and the
    live map agree: an identity has a live connection exactly when it is
    in the set of some role. *)
Theorem reachable_registry_agrees (m : ConnectionManager) (u : Z) :
  reachable m ->
  (is_Some (active_connections m !! u) <-> exists role, u ∈ connections_by_role m role).
Proof.
  intros Hreach. split.
  - apply reachable_live_has_role, Hreach.
  - intros [role Hrole].
    exact (reachable_role_index_consistent m Hreach role u Hrole).
Qed.

Lemma reachable_registry_agrees_witness :
  is_Some (active_connections two_couriers_and_sender !! 2) <->
  exists role, 2 ∈ connections_by_role two_couriers_and_sender role.
Proof.
  exact (reachable_registry_agrees two_couriers_and_sender 2
           two_couriers_and_sender_reachable).
Defined.

(** X2: in every manager the program can reach, the event-loop handle
    is held only while somebody is connected: with an empty live map the
    handle is [None]. *)
Theorem reachable_loop_handle (m : ConnectionManager) :
  reachable m -> active_connections m = ∅ -> loop m = None.
Proof.
  intros Hreach. exact (reachable_loop_cleared_when_idle m Hreach).
Qed.

Lemma after_disconnect_of_subscriber_reachable : reachable after_disconnect_of_subscriber.
Proof.
  unfold after_disconnect_of_subscriber. cbv [run_all].
  apply reach_disconnect, reach_subscribe_to_delivery, reach_connect, reach_init.
Qed.

Lemma reachable_loop_handle_witness : loop after_disconnect_of_subscriber = None.
Proof.
  apply (reachable_loop_handle after_disconnect_of_subscriber
           after_disconnect_of_subscriber_reachable).
  vm_compute. reflexivity.
Defined.

(** ** Disconnecting *)

Lemma set_loop_same m : set_loop (loop m) m = m.
Proof. destruct m. reflexivity. Qed.

Lemma disconnect_state_loop_cleared u m : loop_cleared_when_idle (disconnect_state u m).
Proof.
  intros Hempty. unfold disconnect_state in *.
  destruct (active_connections m !! u); simpl in *.
  - destruct (package_subscriptions m !! u); simpl in *;
      case_decide; simpl in *; congruence.
  - case_decide; simpl in *; [reflexivity|congruence].
Qed.

Lemma disconnect_state_absent u m :
  loop_cleared_when_idle m ->
  active_connections m !! u = None ->
  disconnect_state u m = m.
Proof.
  intros Hloop Hu. unfold disconnect_state. rewrite Hu.
  case_decide as Hempty; [|reflexivity].
  rewrite <- (Hloop Hempty). apply set_loop_same.
Qed.

(** X3: [disconnect] is idempotent, and for an identity that has no
    connection it is a no-op: it returns normally and, in a manager whose
    loop handle is in order, changes nothing at all. *)
Theorem disconnect_idempotent (u : Z) (m : ConnectionManager) :
  result_of (disconnect u) m = Returned tt /\
  mgr_after (disconnect u) (mgr_after (disconnect u) m) = mgr_after (disconnect u) m /\
  (loop_cleared_when_idle m -> active_connections m !! u = None ->
   mgr_after (disconnect u) m = m).
Proof.
  split; [reflexivity|]. unfold mgr_after. rewrite !disconnect_eq. cbn [snd mgr start].
  split.
  - apply disconnect_state_absent.
    + apply disconnect_state_loop_cleared.
    + rewrite active_disconnect_state. apply lookup_delete_eq.
  - apply disconnect_state_absent.
Qed.

Lemma disconnect_idempotent_witness :
  mgr_after (disconnect 1) after_disconnect_of_subscriber = after_disconnect_of_subscriber.
Proof.
  apply (proj2 (proj2 (disconnect_idempotent 1 after_disconnect_of_subscriber))).
  - intros _. vm_compute. reflexivity.
  - vm_compute. reflexivity.
Defined.

(** X4: [disconnect] of one identity leaves every other identity as it
    was: its socket, its membership of every role set and its
    subscriptions in both namespaces. *)
Theorem disconnect_leaves_others (u u' : Z) (m : ConnectionManager) :
  u' <> u ->
  let m' := mgr_after (disconnect u) m in
  active_connections m' !! u' = active_connections m !! u' /\
  (forall role, u' ∈ connections_by_role m' role <-> u' ∈ connections_by_role m role) /\
  package_subscriptions m' !! u' = package_subscriptions m !! u' /\
  delivery_subscriptions m' !! u' = delivery_subscriptions m !! u'.
Proof.
  intros Hne. unfold mgr_after. rewrite disconnect_eq. cbn [snd mgr start].
  split; [|split; [|split]].
  - rewrite active_disconnect_state. apply lookup_delete_ne. congruence.
  - intros role. rewrite roles_disconnect_state.
    destruct (active_connections m !! u); [|reflexivity].
    rewrite elem_of_difference, elem_of_singleton. tauto.
  - rewrite package_disconnect_state.
    destruct (active_connections m !! u); [|reflexivity].
    apply lookup_delete_ne. congruence.
  - rewrite delivery_disconnect_state. reflexivity.
Qed.

Lemma disconnect_leaves_others_witness :
  active_connections (mgr_after (disconnect 1) two_couriers_and_sender) !! 3
  = active_connections two_couriers_and_sender !! 3.
Proof.
  refine (proj1 (disconnect_leaves_others 1 3 two_couriers_and_sender _)).
  discriminate.
Defined.

(** ** Fan-out to everybody and to package subscribers *)

Lemma deliveries_to_own_send_events env message u m :
  deliveries_to u (send_events env message u m) =
  match active_connections m !! u with
  | Some ws =>
      match send_outcome env ws message with
      | None => [message]
      | Some _ => []
      end
  | None => []
  end.
Proof.
  unfold send_events. destruct (active_connections m !! u) as [ws|]; [|reflexivity].
  destruct (send_outcome env ws message); simpl; [reflexivity|].
  rewrite decide_True by reflexivity. reflexivity.
Qed.

Lemma send_all_deliveries env message l w u :
  NoDup l ->
  deliveries_to u (trace (send_all env message l w)) =
  (deliveries_to u (trace w) ++
   if decide (u ∈ l) then deliveries_to u (send_events env message u (mgr w)) else [])%list.
Proof.
  intros Hnd. rewrite send_all_trace by exact Hnd.
  rewrite deliveries_to_app, deliveries_to_fan_out by exact Hnd. reflexivity.
Qed.

Lemma elem_of_live_keys (a : gmap Z WebSocket) (u : Z) :
  u ∈ (map_to_list a).*1 <-> is_Some (a !! u).
Proof.
  rewrite list_elem_of_fmap. split.
  - intros [[u' ws] [-> Hin]]. apply elem_of_map_to_list in Hin. eauto.
  - intros [ws Hws]. exists (u, ws). split; [reflexivity|].
    apply elem_of_map_to_list. exact Hws.
Qed.

(** X5: [broadcast_to_all] makes one send for every identity in the live
    map when the broadcast starts: an identity receives the envelope
    exactly once if it is connected and its socket takes the send, and
    nothing otherwise, whatever happens to the sends for the others. *)
Theorem broadcast_to_all_recipients (env : Env) (message : Message)
    (m : ConnectionManager) (u : Z) :
  deliveries_to u (trace_of (broadcast_to_all env message) m) =
  match active_connections m !! u with
  | Some ws =>
      match send_outcome env ws message with
      | None => [message]
      | Some _ => []
      end
  | None => []
  end.
Proof.
  unfold trace_of. rewrite broadcast_to_all_eq. cbn [snd].
  rewrite send_all_deliveries by apply NoDup_fst_map_to_list. simpl.
  rewrite <- deliveries_to_own_send_events.
  case_decide as Hin; [reflexivity|].
  rewrite deliveries_to_own_send_events.
  destruct (active_connections m !! u) as [ws|] eqn:Hu; [|reflexivity].
  exfalso. apply Hin, elem_of_live_keys. rewrite Hu. eauto.
Qed.

Lemma notify_package_update_deliveries env m p data kind u :
  deliveries_to u (trace_of (notify_package_update env p data kind) m) =
  if decide (p ∈ refs_of (package_subscriptions m) u)
  then deliveries_to u (send_events env (package_update p data kind) u m)
  else [].
Proof.
  unfold trace_of. rewrite notify_package_update_eq. cbn [snd].
  rewrite send_all_deliveries by apply NoDup_subscribed_users. simpl.
  destruct (decide (p ∈ refs_of (package_subscriptions m) u)) as [Hin|Hnin].
  - rewrite decide_True by (apply elem_of_subscribed_users; exact Hin). reflexivity.
  - rewrite decide_False; [reflexivity|]. rewrite elem_of_subscribed_users. exact Hnin.
Qed.

(** X6: [notify_package_update] delivers one [package_update] envelope
    to every identity that holds the package id in its package
    subscriptions, is connected and whose socket takes the send, and
    nothing to anybody else.  The delivery subscriptions play no part:
    replacing them by any others changes nothing of what is sent, so an
    identity subscribed to the delivery of the same number only gets
    nothing. *)
Theorem notify_package_update_recipients (env : Env) (m : ConnectionManager)
    (p : Z) (data : Message) (kind : string) :
  (forall u,
     deliveries_to u (trace_of (notify_package_update env p data kind) m) =
     if decide (p ∈ refs_of (package_subscriptions m) u)
     then match active_connections m !! u with
          | Some ws =>
              match send_outcome env ws (package_update p data kind) with
              | None => [package_update p data kind]
              | Some _ => []
              end
          | None => []
          end
     else []) /\
  (forall d,
     trace_of (notify_package_update env p data kind) (set_delivery_subscriptions d m)
     = trace_of (notify_package_update env p data kind) m).
Proof.
  split.
  - intros u. rewrite notify_package_update_deliveries.
    rewrite deliveries_to_own_send_events. reflexivity.
  - intros d. unfold trace_of. rewrite !notify_package_update_eq. cbn [snd].
    rewrite !send_all_trace by apply NoDup_subscribed_users. reflexivity.
Qed.

(** ** Subscribing twice, unsubscribing what is not there *)

Lemma add_subscription_eq u ref subs :
  add_subscription u ref subs = <[u := refs_of subs u ∪ {[ref]}]> subs.
Proof.
  unfold add_subscription, refs_of.
  destruct (subs !! u) as [refs|] eqn:Hu; simpl.
  - rewrite Hu. reflexivity.
  - rewrite lookup_insert_eq, insert_insert_eq. reflexivity.
Qed.

Lemma add_subscription_idempotent u ref subs :
  add_subscription u ref (add_subscription u ref subs) = add_subscription u ref subs.
Proof.
  rewrite (add_subscription_eq u ref (add_subscription u ref subs)).
  rewrite refs_of_add_subscription, decide_True by reflexivity.
  rewrite add_subscription_eq, insert_insert_eq. f_equal.
  apply leibniz_equiv. intros x. rewrite !elem_of_union. tauto.
Qed.

Lemma discard_subscription_absent u ref subs :
  ref ∉ refs_of subs u -> discard_subscription u ref subs = subs.
Proof.
  intros Hnin. unfold discard_subscription, refs_of in *.
  destruct (subs !! u) as [refs|] eqn:Hu; [|reflexivity]. simpl in Hnin.
  apply insert_id. rewrite Hu. f_equal.
  apply leibniz_equiv. intros x. rewrite elem_of_difference, elem_of_singleton.
  split; [|intros [Hx _]; exact Hx]. intros Hx. split; [exact Hx|]. congruence.
Qed.

Lemma send_effect_mgr_not_cut env message u w :
  (forall ws, active_connections (mgr w) !! u = Some ws ->
              send_outcome env ws message <> Some WebSocketDisconnect) ->
  mgr (send_effect env message u w) = mgr w.
Proof.
  intros Hok. unfold send_effect.
  destruct (active_connections (mgr w) !! u) as [ws|] eqn:Hu; [|reflexivity].
  specialize (Hok ws eq_refl).
  destruct (send_outcome env ws message) as [[]|]; try reflexivity. congruence.
Qed.

(** X7: subscribing twice is the same as subscribing once.  In the
    delivery namespace the subscriptions after two [subscribe_to_delivery]
    calls equal those after one, whatever the transports do; in the
    package namespace the same holds as long as no confirmation is cut by
    a disconnect. *)
Theorem subscribe_idempotent (env1 env2 : Env) (m : ConnectionManager) (u ref : Z) :
  delivery_subscriptions
    (mgr_after (subscribe_to_delivery env2 u ref)
       (mgr_after (subscribe_to_delivery env1 u ref) m))
  = delivery_subscriptions (mgr_after (subscribe_to_delivery env1 u ref) m) /\
  ((forall ws, active_connections m !! u = Some ws ->
               send_outcome env1 ws (package_subscribed ref) <> Some WebSocketDisconnect /\
               send_outcome env2 ws (package_subscribed ref) <> Some WebSocketDisconnect) ->
   package_subscriptions
     (mgr_after (subscribe_to_package env2 u ref)
        (mgr_after (subscribe_to_package env1 u ref) m))
   = package_subscriptions (mgr_after (subscribe_to_package env1 u ref) m)).
Proof.
  split.
  - unfold mgr_after. rewrite !subscribe_to_delivery_eq. cbn [snd].
    rewrite !send_effect_delivery. simpl. rewrite send_effect_delivery. simpl.
    apply add_subscription_idempotent.
  - intros Hok. unfold mgr_after. rewrite (subscribe_to_package_eq env1). cbn [snd].
    rewrite (send_effect_mgr_not_cut env1); [|simpl; intros ws Hws; apply (Hok ws Hws)].
    rewrite subscribe_to_package_eq. cbn [snd].
    rewrite (send_effect_mgr_not_cut env2); [|simpl; intros ws Hws; apply (Hok ws Hws)].
    simpl. apply add_subscription_idempotent.
Qed.

Lemma subscribe_idempotent_witness :
  package_subscriptions
    (mgr_after (subscribe_to_package healthy 1 5)
       (mgr_after (subscribe_to_package healthy 1 5) only_A_connected))
  = package_subscriptions (mgr_after (subscribe_to_package healthy 1 5) only_A_connected).
Proof.
  apply (proj2 (subscribe_idempotent healthy healthy only_A_connected 1 5)).
  intros ws _. split; discriminate.
Defined.

(** X8: unsubscribing from a ref the identity does not hold changes no
    subscription and creates no entry, yet the confirmation is sent all
    the same: a connected identity whose socket takes the send receives
    one [delivery_unsubscribed] (or [package_unsubscribed]) envelope. *)
Theorem unsubscribe_absent (env : Env) (m : ConnectionManager) (u ref : Z) (ws : WebSocket) :
  active_connections m !! u = Some ws ->
  (ref ∉ refs_of (delivery_subscriptions m) u ->
   send_outcome env ws (delivery_unsubscribed ref) = None ->
   mgr_after (unsubscribe_from_delivery env u ref) m = m /\
   deliveries_to u (trace_of (unsubscribe_from_delivery env u ref) m)
     = [delivery_unsubscribed ref]) /\
  (ref ∉ refs_of (package_subscriptions m) u ->
   send_outcome env ws (package_unsubscribed ref) = None ->
   mgr_after (unsubscribe_from_package env u ref) m = m /\
   deliveries_to u (trace_of (unsubscribe_from_package env u ref) m)
     = [package_unsubscribed ref]).
Proof.
  intros Hu. split; intros Hnin Hok; unfold mgr_after, trace_of.
  - rewrite unsubscribe_from_delivery_eq. cbn [snd].
    rewrite discard_subscription_absent by exact Hnin.
    unfold send_effect. simpl. rewrite Hu, Hok. simpl.
    rewrite decide_True by reflexivity. split; [destruct m|]; reflexivity.
  - rewrite unsubscribe_from_package_eq. cbn [snd].
    rewrite discard_subscription_absent by exact Hnin.
    unfold send_effect. simpl. rewrite Hu, Hok. simpl.
    rewrite decide_True by reflexivity. split; [destruct m|]; reflexivity.
Qed.

Lemma unsubscribe_absent_witness :
  mgr_after (unsubscribe_from_delivery healthy 1 7) only_A_connected = only_A_connected.
Proof.
  refine (proj1 (proj1 (unsubscribe_absent healthy only_A_connected 1 7 (Socket 1) eq_refl)
                   _ eq_refl)).
  apply (bool_decide_unpack _). vm_compute. exact I.
Defined.

(** ** Connecting again, and connecting in vain *)

(** X9: [connect] never takes anybody out of a role set and touches no
    other identity's socket.  An identity that connects again is moved to
    the new socket, and when it comes back under another role it is in the
    sets of both roles afterwards.  (Handshake accepted, welcome message
    not cut by a disconnect.) *)
Theorem connect_keeps_role_members (env : Env) (ws : WebSocket) (user : User)
    (m : ConnectionManager) :
  accept_outcome env ws = None ->
  send_outcome env ws (connection_established user) <> Some WebSocketDisconnect ->
  let m' := mgr_after (connect env ws user) m in
  (forall role u, u ∈ connections_by_role m role -> u ∈ connections_by_role m' role) /\
  (forall u, u <> user_id user ->
             active_connections m' !! u = active_connections m !! u) /\
  active_connections m' !! user_id user = Some ws.
Proof.
  intros Hacc Hsend. simpl. unfold mgr_after.
  rewrite connect_eq, Hacc. cbn [snd].
  rewrite (send_effect_mgr_kept env _ (user_id user) ws); [|simpl|exact Hsend].
  2:{ rewrite registered_active. apply lookup_insert_eq. }
  simpl. split; [|split].
  - intros role u Hin. rewrite registered_roles. unfold add_to_role.
    case_decide; [apply elem_of_union; left|]; exact Hin.
  - intros u Hne. rewrite registered_active. apply lookup_insert_ne. congruence.
  - rewrite registered_active. apply lookup_insert_eq.
Qed.

Lemma connect_keeps_role_members_witness :
  let m' := mgr_after (connect healthy (Socket 9) admin_A) only_A_connected in
  1 ∈ connections_by_role m' COURIER /\ 1 ∈ connections_by_role m' ADMIN /\
  active_connections m' !! 1 = Some (Socket 9).
Proof.
  intros m'.
  assert (Hne : send_outcome healthy (Socket 9) (connection_established admin_A)
                <> Some WebSocketDisconnect) by discriminate.
  destruct (connect_keeps_role_members healthy (Socket 9) admin_A only_A_connected
              eq_refl Hne) as (Hroles & _ & Hsock).
  split; [|split].
  - apply Hroles. apply (bool_decide_unpack _). vm_compute. exact I.
  - apply (bool_decide_unpack _). vm_compute. exact I.
  - exact Hsock.
Defined.

(** X10: how [connect] fails.  A handshake that raises is re-raised to
    the caller with the manager untouched and nothing sent.  A welcome
    message cut by [WebSocketDisconnect] is not reported at all: [connect]
    returns normally, but the identity is in no live map entry and has no
    package entry afterwards, even if it was connected on another socket
    before. *)
Theorem connect_failures (env : Env) (ws : WebSocket) (user : User) (m : ConnectionManager) :
  (forall e, accept_outcome env ws = Some e ->
     result_of (connect env ws user) m = Raised e /\
     mgr_after (connect env ws user) m = m /\
     delivered_nothing (trace_of (connect env ws user) m)) /\
  (accept_outcome env ws = None ->
   send_outcome env ws (connection_established user) = Some WebSocketDisconnect ->
     result_of (connect env ws user) m = Returned tt /\
     active_connections (mgr_after (connect env ws user) m) !! user_id user = None /\
     package_subscriptions (mgr_after (connect env ws user) m) !! user_id user = None /\
     delivered_nothing (trace_of (connect env ws user) m)).
Proof.
  unfold result_of, mgr_after, trace_of, delivered_nothing. split.
  - intros e He. rewrite connect_eq, He. simpl. repeat split.
  - intros Hacc Hsend. rewrite connect_eq, Hacc. cbn [fst snd].
    assert (Hws : active_connections (registered env ws user m) !! user_id user = Some ws).
    { rewrite registered_active. apply lookup_insert_eq. }
    unfold send_effect. cbn [mgr trace start]. rewrite Hws, Hsend. cbn [mgr trace].
    split; [reflexivity|]. split; [|split].
    + rewrite active_disconnect_state. apply lookup_delete_eq.
    + rewrite package_disconnect_state, Hws. apply lookup_delete_eq.
    + intros u. reflexivity.
Qed.

Lemma connect_failures_witness :
  active_connections
    (mgr_after (connect (failing_on (Socket 9) WebSocketDisconnect) (Socket 9) courier_A)
       only_A_connected) !! 1 = None.
Proof.
  exact (proj1 (proj2 (proj2 (connect_failures (failing_on (Socket 9) WebSocketDisconnect)
                                (Socket 9) courier_A only_A_connected) eq_refl eq_refl))).
Defined.

(** ** Statistics *)

Lemma size_union_le (X Y : gset Z) : (size (X ∪ Y) <= size X + size Y)%nat.
Proof.
  rewrite size_union_alt.
  assert (size (Y ∖ X) <= size Y)%nat; [|lia].
  apply subseteq_size. intros x. rewrite elem_of_difference. tauto.
Qed.

Lemma role_set_size_le m role :
  role_index_consistent m ->
  (size (connections_by_role m role) <= size (active_connections m))%nat.
Proof.
  intros Hroles. rewrite <- (size_dom (D := gset Z)).
  apply subseteq_size. intros u Hu. apply elem_of_dom. eauto.
Qed.

Lemma live_size_le m :
  live_has_role m ->
  (size (active_connections m) <=
   size (connections_by_role m ADMIN) + size (connections_by_role m COURIER) +
   size (connections_by_role m SENDER) + size (connections_by_role m RECIPIENT))%nat.
Proof.
  intros Hlive. rewrite <- (size_dom (D := gset Z)).
  assert (Hsub : dom (active_connections m) ⊆
                 connections_by_role m ADMIN ∪ connections_by_role m COURIER ∪
                 connections_by_role m SENDER ∪ connections_by_role m RECIPIENT).
  { intros u Hu. apply elem_of_dom in Hu. destruct (Hlive u Hu) as [role Hrole].
    rewrite !elem_of_union. destruct role; tauto. }
  apply subseteq_size in Hsub.
  pose proof (size_union_le
                (connections_by_role m ADMIN ∪ connections_by_role m COURIER ∪
                 connections_by_role m SENDER) (connections_by_role m RECIPIENT)).
  pose proof (size_union_le
                (connections_by_role m ADMIN ∪ connections_by_role m COURIER)
                (connections_by_role m SENDER)).
  pose proof (size_union_le (connections_by_role m ADMIN) (connections_by_role m COURIER)).
  lia.
Qed.

(** X11: the numbers [get_connection_stats] reports are consistent in
    every reachable manager: each per-role count is at most
    [total_connections], and the four of them add up to at least
    [total_connections] (more when an identity came back under another
    role).  The roles are listed in the order admin, courier, sender,
    recipient. *)
Theorem connection_stats_consistent (m : ConnectionManager) :
  reachable m ->
  exists n a c s r : nat,
    get_connection_stats m =
      [("total_connections", JLen n);
       ("connections_by_role",
        JDict [("admin", JLen a); ("courier", JLen c);
               ("sender", JLen s); ("recipient", JLen r)]);
       ("total_package_subscriptions", JLen (total_refs (package_subscriptions m)));
       ("total_delivery_subscriptions", JLen (total_refs (delivery_subscriptions m)))] /\
    (a <= n /\ c <= n /\ s <= n /\ r <= n /\ n <= a + c + s + r)%nat.
Proof.
  intros Hreach.
  pose proof (reachable_role_index_consistent m Hreach) as Hroles.
  pose proof (reachable_live_has_role m Hreach) as Hlive.
  exists (size (active_connections m)),
         (size (connections_by_role m ADMIN)), (size (connections_by_role m COURIER)),
         (size (connections_by_role m SENDER)), (size (connections_by_role m RECIPIENT)).
  split; [reflexivity|].
  pose proof (live_size_le m Hlive).
  repeat split; try apply role_set_size_le; assumption.
Qed.

Lemma connection_stats_consistent_witness :
  exists n a c s r : nat,
    get_connection_stats two_couriers_and_sender =
      [("total_connections", JLen n);
       ("connections_by_role",
        JDict [("admin", JLen a); ("courier", JLen c);
               ("sender", JLen s); ("recipient", JLen r)]);
       ("total_package_subscriptions",
        JLen (total_refs (package_subscriptions two_couriers_and_sender)));
       ("total_delivery_subscriptions",
        JLen (total_refs (delivery_subscriptions two_couriers_and_sender)))] /\
    (a <= n /\ c <= n /\ s <= n /\ r <= n /\ n <= a + c + s + r)%nat.
Proof.
  exact (connection_stats_consistent two_couriers_and_sender
           two_couriers_and_sender_reachable).
Defined.

(** The statistics of the scenario with two couriers and a sender. *)
Example connection_stats_example :
  get_connection_stats two_couriers_and_sender =
    [("total_connections", JInt 3);
     ("connections_by_role",
      JDict [("admin", JInt 0); ("courier", JInt 2); ("sender", JInt 1); ("recipient", JInt 0)]);
     ("total_package_subscriptions", JInt 0);
     ("total_delivery_subscriptions", JInt 0)].
Proof. vm_compute. reflexivity. Qed.

(** ** Event producers *)

Lemma send_effect_accepted env message u w :
  accepts_all env -> mgr (send_effect env message u w) = mgr w.
Proof.
  intros Hacc. apply send_effect_mgr_not_cut. intros ws _. rewrite Hacc. discriminate.
Qed.

Lemma send_all_accepted env message l : forall w,
  accepts_all env -> mgr (send_all env message l w) = mgr w.
Proof.
  induction l as [|a l IH]; intros w Hacc; [reflexivity|].
  rewrite send_all_cons, IH by exact Hacc. apply send_effect_accepted, Hacc.
Qed.

Lemma deliveries_to_own_accepted env message u m :
  accepts_all env ->
  is_Some (active_connections m !! u) ->
  deliveries_to u (send_events env message u m) = [message].
Proof.
  intros Hacc [ws Hws]. rewrite deliveries_to_own_send_events, Hws, Hacc. reflexivity.
Qed.

(** What a role broadcast adds for one identity when every send goes
    through. *)
Lemma role_broadcast_deliveries env message role w u :
  accepts_all env ->
  role_index_consistent (mgr w) ->
  deliveries_to u (trace (snd (broadcast_to_role env message role w))) =
  (deliveries_to u (trace w) ++
   if decide (u ∈ connections_by_role (mgr w) role) then [message] else [])%list.
Proof.
  intros Hacc Hroles. rewrite broadcast_to_role_eq. cbn [snd].
  rewrite send_all_deliveries by apply NoDup_elements. f_equal.
  destruct (decide (u ∈ connections_by_role (mgr w) role)) as [Hin|Hnin].
  - rewrite decide_True by (apply elem_of_elements; exact Hin).
    apply deliveries_to_own_accepted; eauto.
  - rewrite decide_False; [reflexivity|]. rewrite elem_of_elements. exact Hnin.
Qed.

Lemma role_broadcast_mgr env message role w :
  accepts_all env -> mgr (snd (broadcast_to_role env message role w)) = mgr w.
Proof.
  intros Hacc. rewrite broadcast_to_role_eq. cbn [snd]. apply send_all_accepted, Hacc.
Qed.

Lemma json_of_datetime package_data key stamp :
  In (key, DatetimeObject stamp) package_data -> json_of package_data = None.
Proof.
  induction package_data as [|[k v] rest IH]; intros Hin; [destruct Hin|].
  destruct Hin as [[= -> ->]|Hin]; [reflexivity|].
  simpl. destruct v; [|reflexivity]. rewrite (IH Hin). reflexivity.
Qed.

Lemma send_unencodable_eq type_error u w :
  type_error <> WebSocketDisconnect ->
  send_unencodable type_error u w = (Returned tt, w).
Proof.
  intros Hne. unfold send_unencodable, try_except, bind, get_mgr.
  destruct (active_connections (mgr w) !! u); [|reflexivity].
  unfold raise. destruct type_error; try reflexivity. congruence.
Qed.

Lemma broadcast_unencodable_loop_eq type_error l : forall d w,
  type_error <> WebSocketDisconnect ->
  broadcast_unencodable_loop type_error l d w = (Returned d, w).
Proof.
  induction l as [|u l IH]; intros d w Hne; [reflexivity|].
  cbn [broadcast_unencodable_loop]. unfold bind at 1, try_except, bind at 1.
  rewrite send_unencodable_eq by exact Hne. apply IH, Hne.
Qed.

Lemma broadcast_unencodable_to_role_eq type_error role w :
  type_error <> WebSocketDisconnect ->
  broadcast_unencodable_to_role type_error role w = (Returned tt, w).
Proof.
  intros Hne. unfold broadcast_unencodable_to_role, try_except, bind at 1, get_mgr.
  destruct (elements (connections_by_role (mgr w) role)) as [|u l]; [reflexivity|].
  unfold bind. rewrite broadcast_unencodable_loop_eq by exact Hne. reflexivity.
Qed.

(** X12: [package_created] reaches nobody with a rendering that holds a
    [datetime] object, as every rendering of [PackageResponse] does
    ([created_at], [updated_at]): [json.dumps] raises in every send,
    [send_personal_message] swallows it, and the call returns normally
    with no transport touched and the manager as it was.  The same holds
    when rendering the package raises.  Only for a rendering that
    [json.dumps] can encode, and with sends that go through, would every
    identity in the admin set get one [package_created] envelope and
    every identity in the courier set one [new_package_available]
    envelope, and nobody else anything. *)
Theorem package_created_outcomes (env : Env) (type_error : PyException)
    (model_dump : Package -> Result Rendering) (package : Package)
    (m : ConnectionManager) :
  type_error <> WebSocketDisconnect ->
  (forall package_data key stamp,
     model_dump package = Returned package_data ->
     In (key, DatetimeObject stamp) package_data ->
     forall w, package_created env type_error model_dump package w = (Returned tt, w)) /\
  (forall e, model_dump package = Raised e ->
     forall w, package_created env type_error model_dump package w = (Returned tt, w)) /\
  (forall package_data data,
     model_dump package = Returned package_data ->
     json_of package_data = Some data ->
     accepts_all env -> role_index_consistent m ->
     forall u,
       deliveries_to u (trace_of (package_created env type_error model_dump package) m) =
       ((if decide (u ∈ connections_by_role m ADMIN)
         then [package_created_message package data] else []) ++
        (if decide (u ∈ connections_by_role m COURIER)
         then [new_package_available_message package data] else []))%list).
Proof.
  intros Hne. split; [|split].
  - intros package_data key stamp Hdump Hin w.
    unfold package_created, try_except, bind, lift_result.
    rewrite Hdump. unfold ret at 1. unfold broadcast_rendered_to_role.
    rewrite (json_of_datetime _ _ _ Hin).
    rewrite !broadcast_unencodable_to_role_eq by exact Hne. reflexivity.
  - intros e Hdump w. unfold package_created, try_except, bind, lift_result.
    rewrite Hdump. reflexivity.
  - intros package_data data Hdump Hjson Hacc Hroles u.
    unfold trace_of, package_created, try_except, bind, lift_result.
    rewrite Hdump. unfold ret at 1. unfold broadcast_rendered_to_role.
    rewrite Hjson.
    pose proof (role_broadcast_deliveries env (package_created_message package data)
                  ADMIN (start m) u Hacc Hroles) as H1.
    pose proof (role_broadcast_mgr env (package_created_message package data)
                  ADMIN (start m) Hacc) as Hm1.
    destruct (broadcast_to_role env (package_created_message package data) ADMIN (start m))
      as [[[]|e1] w1] eqn:Hb1.
    2:{ rewrite broadcast_to_role_eq in Hb1. discriminate Hb1. }
    cbn [snd] in H1, Hm1.
    assert (Hroles1 : role_index_consistent (mgr w1)) by (rewrite Hm1; exact Hroles).
    pose proof (role_broadcast_deliveries env (new_package_available_message package data)
                  COURIER w1 u Hacc Hroles1) as H2.
    destruct (broadcast_to_role env (new_package_available_message package data) COURIER w1)
      as [[[]|e2] w2] eqn:Hb2.
    2:{ rewrite broadcast_to_role_eq in Hb2. discriminate Hb2. }
    cbn [snd] in *. rewrite H2, H1, Hm1. reflexivity.
Qed.

Lemma healthy_accepts_all : accepts_all healthy.
Proof. intros ws message. reflexivity. Qed.

Lemma admin_courier_and_sender_reachable : reachable admin_courier_and_sender.
Proof.
  unfold admin_courier_and_sender. cbv [run_all].
  apply reach_connect, reach_connect, reach_connect, reach_init.
Qed.

(** Admin E and courier A are connected and the sends would go through,
    yet the parcel, rendered with its timestamps, is announced to
    nobody. *)
Lemma package_created_outcomes_witness :
  package_created healthy (RuntimeError) dated_dump parcel
    (start admin_courier_and_sender)
  = (Returned tt, start admin_courier_and_sender).
Proof.
  assert (Hne : RuntimeError <> WebSocketDisconnect) by discriminate.
  apply (proj1 (package_created_outcomes healthy (RuntimeError) dated_dump parcel
                  admin_courier_and_sender Hne)
           _ "created_at" 1700000000 eq_refl).
  right. right. left. reflexivity.
Defined.

(** Predicates on delivered envelopes pass through sends. *)
Lemma all_deliveries_send_effect (P : Message -> Prop) env message u w :
  P message ->
  all_deliveries P (trace w) ->
  all_deliveries P (trace (send_effect env message u w)).
Proof.
  intros HP Hw u' x. rewrite send_effect_trace, deliveries_to_app.
  rewrite elem_of_app. intros [Hx|Hx]; [exact (Hw u' x Hx)|].
  rewrite deliveries_to_send_events in Hx. case_decide; [|inversion Hx].
  rewrite deliveries_to_own_send_events in Hx.
  destruct (active_connections (mgr w) !! u') as [ws|]; [|inversion Hx].
  destruct (send_outcome env ws message); [inversion Hx|].
  apply list_elem_of_singleton in Hx. subst. exact HP.
Qed.

Lemma all_deliveries_send_all (P : Message -> Prop) env message l :
  P message ->
  forall w, all_deliveries P (trace w) ->
            all_deliveries P (trace (send_all env message l w)).
Proof.
  intros HP. induction l as [|a l IH]; intros w Hw; [exact Hw|].
  rewrite send_all_cons. apply IH, all_deliveries_send_effect; assumption.
Qed.

Lemma all_deliveries_send_if_set (P : Message -> Prop) env message target w :
  P message ->
  all_deliveries P (trace w) ->
  all_deliveries P (trace (snd (send_if_set env message target w))).
Proof.
  intros HP Hw. unfold send_if_set. destruct (truthy_id target); [|exact Hw].
  rewrite send_personal_message_eq. apply all_deliveries_send_effect; assumption.
Qed.

Lemma send_if_set_returns env message target w :
  fst (send_if_set env message target w) = Returned tt.
Proof.
  unfold send_if_set. destruct (truthy_id target); [|reflexivity].
  rewrite send_personal_message_eq. reflexivity.
Qed.

(** X13: whatever the package, the statuses and the transports,
    [package_status_updated] returns normally and every envelope it
    delivers has one of the types [package_update],
    [package_assigned_to_you], [package_picked_up], [package_delivered]
    and [delivery_failed].  The [package_status_updated] dict that the
    function builds is never sent to anybody. *)
Theorem package_status_updated_envelopes (env : Env)
    (model_dump : Package -> Result Message) (package : Package)
    (old_status new_status : string) (m : ConnectionManager) :
  result_of (package_status_updated env model_dump package old_status new_status) m
    = Returned tt /\
  all_deliveries
    (fun message => exists t, envelope_type message = Some t /\
                              t ∈ status_update_types /\ t <> "package_status_updated")
    (trace_of (package_status_updated env model_dump package old_status new_status) m).
Proof.
  set (P := fun message : Message =>
              exists t, envelope_type message = Some t /\
                        t ∈ status_update_types /\ t <> "package_status_updated").
  assert (Hupd : forall data kind, P (package_update (pkg_id package) data kind)).
  { intros. exists "package_update". repeat split; [set_solver|discriminate]. }
  assert (Hass : P (package_assigned_to_you package)).
  { exists "package_assigned_to_you". repeat split; [set_solver|discriminate]. }
  assert (Hpick : P (package_picked_up package)).
  { exists "package_picked_up". repeat split; [set_solver|discriminate]. }
  assert (Hdel : P (package_delivered package)).
  { exists "package_delivered". repeat split; [set_solver|discriminate]. }
  assert (Hfail : P (delivery_failed package)).
  { exists "delivery_failed". repeat split; [set_solver|discriminate]. }
  assert (Hstart : all_deliveries P (trace (start m))).
  { intros u x Hx. inversion Hx. }
  unfold result_of, trace_of, package_status_updated, try_except, bind, lift_result.
  destruct (model_dump package) as [data|e]; cbn [ret raise]; [|split; [reflexivity|exact Hstart]].
  rewrite notify_package_update_eq.
  set (w1 := send_all env (package_update (pkg_id package) data "status_updated")
               (subscribed_users (pkg_id package) (package_subscriptions (mgr (start m))))
               (start m)).
  assert (Hw1 : all_deliveries P (trace w1)).
  { apply all_deliveries_send_all; [apply Hupd|exact Hstart]. }
  clearbody w1.
  unfold _notify_package_assigned, _notify_package_picked_up, _notify_package_delivered,
    _notify_delivery_failed.
  repeat case_decide.
  - pose proof (send_if_set_returns env (package_assigned_to_you package)
                  (pkg_courier_id package) w1) as Hr.
    pose proof (all_deliveries_send_if_set P env (package_assigned_to_you package)
                  (pkg_courier_id package) w1 Hass Hw1) as Ht.
    destruct (send_if_set env (package_assigned_to_you package) (pkg_courier_id package) w1)
      as [r w2]. cbn [fst snd] in *. subst r. split; [reflexivity|exact Ht].
  - pose proof (send_if_set_returns env (package_picked_up package)
                  (pkg_sender_id package) w1) as Hr.
    pose proof (all_deliveries_send_if_set P env (package_picked_up package)
                  (pkg_sender_id package) w1 Hpick Hw1) as Ht.
    destruct (send_if_set env (package_picked_up package) (pkg_sender_id package) w1)
      as [r w2]. cbn [fst snd] in *. subst r. split; [reflexivity|exact Ht].
  - pose proof (send_if_set_returns env (package_delivered package)
                  (pkg_sender_id package) w1) as Hr.
    pose proof (all_deliveries_send_if_set P env (package_delivered package)
                  (pkg_sender_id package) w1 Hdel Hw1) as Ht.
    destruct (send_if_set env (package_delivered package) (pkg_sender_id package) w1)
      as [r w2]. cbn [fst snd] in *. subst r. split; [reflexivity|exact Ht].
  - unfold bind.
    pose proof (send_if_set_returns env (delivery_failed package)
                  (pkg_sender_id package) w1) as Hr.
    pose proof (all_deliveries_send_if_set P env (delivery_failed package)
                  (pkg_sender_id package) w1 Hfail Hw1) as Ht.
    destruct (send_if_set env (delivery_failed package) (pkg_sender_id package) w1)
      as [r w2]. cbn [fst snd] in *. subst r.
    pose proof (send_if_set_returns env (delivery_failed package)
                  (pkg_courier_id package) w2) as Hr2.
    pose proof (all_deliveries_send_if_set P env (delivery_failed package)
                  (pkg_courier_id package) w2 Hfail Ht) as Ht2.
    destruct (send_if_set env (delivery_failed package) (pkg_courier_id package) w2)
      as [r w3]. cbn [fst snd] in *. subst r. split; [reflexivity|exact Ht2].
  - split; [reflexivity|exact Hw1].
Qed.

(** X14: a status change to anything but ["assigned"], ["picked_up"],
    ["delivered"] or ["failed"] (so ["created"], ["in_transit"],
    ["cancelled"] or any other string) does what
    [notify_package_update] alone does: the subscribers of the package
    are told and nobody gets a personal notice.  The same goes for
    ["assigned"] when the package has no courier, or courier id 0. *)
Theorem package_status_without_notice (env : Env) (model_dump : Package -> Result Message)
    (package : Package) (old_status new_status : string) (data : Message) (w : World) :
  model_dump package = Returned data ->
  (new_status ∉ ["assigned"; "picked_up"; "delivered"; "failed"] \/
   (new_status = "assigned" /\ truthy_id (pkg_courier_id package) = None)) ->
  package_status_updated env model_dump package old_status new_status w =
  notify_package_update env (pkg_id package) data "status_updated" w.
Proof.
  intros Hdump Hstatus.
  unfold package_status_updated, try_except, bind, lift_result. rewrite Hdump. cbn [ret].
  rewrite notify_package_update_eq.
  destruct Hstatus as [Hother|[-> Hnone]].
  - repeat case_decide; try reflexivity; subst; exfalso; apply Hother;
      repeat (first [apply list_elem_of_here | apply list_elem_of_further]).
  - rewrite decide_True by reflexivity.
    unfold _notify_package_assigned, send_if_set. rewrite Hnone. reflexivity.
Qed.

Lemma package_status_without_notice_witness :
  package_status_updated healthy plain_dump parcel "picked_up" "in_transit"
    (start admin_courier_and_sender)
  = notify_package_update healthy 3 [("id", JInt 3); ("title", JStr "Box")] "status_updated"
      (start admin_courier_and_sender).
Proof.
  apply (package_status_without_notice healthy plain_dump parcel "picked_up" "in_transit"
           [("id", JInt 3); ("title", JStr "Box")] (start admin_courier_and_sender) eq_refl).
  left. intros Hin. repeat (apply elem_of_cons in Hin as [Hin|Hin]; [discriminate Hin|]).
  inversion Hin.
Defined.

(** What a list of role broadcasts adds for one identity when every send
    goes through. *)
Lemma role_broadcasts_deliveries env message roles u : forall w,
  accepts_all env ->
  role_index_consistent (mgr w) ->
  fst (for_each roles (broadcast_to_role env message) w) = Returned tt /\
  mgr (snd (for_each roles (broadcast_to_role env message) w)) = mgr w /\
  deliveries_to u (trace (snd (for_each roles (broadcast_to_role env message) w))) =
  (deliveries_to u (trace w) ++
   flat_map (fun role => if decide (u ∈ connections_by_role (mgr w) role)
                         then [message] else []) roles)%list.
Proof.
  induction roles as [|role roles IH]; intros w Hacc Hroles.
  - simpl. rewrite app_nil_r. auto.
  - cbn [for_each]. unfold bind.
    pose proof (role_broadcast_deliveries env message role w u Hacc Hroles) as H1.
    pose proof (role_broadcast_mgr env message role w Hacc) as Hm1.
    destruct (broadcast_to_role env message role w) as [[[]|e1] w1] eqn:Hb1.
    2:{ rewrite broadcast_to_role_eq in Hb1. discriminate Hb1. }
    cbn [snd] in H1, Hm1.
    destruct (IH w1 Hacc) as (Hr & Hm & Ht); [rewrite Hm1; exact Hroles|].
    rewrite Hr, Hm, Ht, H1, Hm1. cbn [flat_map]. rewrite <- app_assoc. auto.
Qed.

(** X15: [system_announcement] with no target roles, or with an empty
    list of them, is a [broadcast_to_all].  With a list of roles it
    broadcasts to one role after the other, so that (sends going through)
    an identity receives one copy for every entry of the list whose role
    set it is in: two copies if a role is listed twice or if it is in two
    of the listed sets. *)
Theorem system_announcement_copies (env : Env) (text : string) (m : ConnectionManager) :
  system_announcement env text None (start m)
    = broadcast_to_all env (announcement text) (start m) /\
  system_announcement env text (Some []) (start m)
    = broadcast_to_all env (announcement text) (start m) /\
  (forall role roles u,
     accepts_all env -> role_index_consistent m ->
     deliveries_to u (trace_of (system_announcement env text (Some (role :: roles))) m) =
     flat_map (fun r => if decide (u ∈ connections_by_role m r)
                        then [announcement text] else []) (role :: roles)).
Proof.
  split; [|split].
  - unfold system_announcement, try_except. rewrite broadcast_to_all_eq. reflexivity.
  - unfold system_announcement, try_except. rewrite broadcast_to_all_eq. reflexivity.
  - intros role roles u Hacc Hroles.
    unfold trace_of, system_announcement, try_except.
    destruct (role_broadcasts_deliveries env (announcement text) (role :: roles) u
                (start m) Hacc Hroles) as (Hr & _ & Ht).
    destruct (for_each (role :: roles) (broadcast_to_role env (announcement text)) (start m))
      as [r w1]. cbn [fst snd] in *. subst r. exact Ht.
Qed.

Lemma system_announcement_copies_witness :
  deliveries_to 1
    (trace_of (system_announcement healthy "Maintenance at noon" (Some [COURIER; ADMIN; COURIER]))
       admin_courier_and_sender)
  = [announcement "Maintenance at noon"; announcement "Maintenance at noon"].
Proof.
  exact (proj2 (proj2 (system_announcement_copies healthy "Maintenance at noon"
                         admin_courier_and_sender))
           COURIER [ADMIN; COURIER] 1 healthy_accepts_all
           (reachable_role_index_consistent _ admin_courier_and_sender_reachable)).
Defined.

(** ** Protocol layer *)

(** Rules for [preserves], for a relation that is reflexive and
    transitive. *)
Section Preserves.

Variable R : World -> World -> Prop.
Hypothesis R_refl : forall w, R w w.
Hypothesis R_trans : forall w1 w2 w3, R w1 w2 -> R w2 w3 -> R w1 w3.

Lemma preserves_ret {A} (a : A) : preserves R (ret a).
Proof. intros w. apply R_refl. Qed.

Lemma preserves_raise {A} e : preserves R (raise (A := A) e).
Proof. intros w. apply R_refl. Qed.

Lemma preserves_get_mgr : preserves R get_mgr.
Proof. intros w. apply R_refl. Qed.

Lemma preserves_lift_result {A} (r : Result A) : preserves R (lift_result r).
Proof. destruct r; [apply preserves_ret|apply preserves_raise]. Qed.

Lemma preserves_bind {A B} (c : M A) (k : A -> M B) :
  preserves R c -> (forall a, preserves R (k a)) -> preserves R (bind c k).
Proof.
  intros Hc Hk w. unfold bind. specialize (Hc w).
  destruct (c w) as [[a|e] w1]; cbn [snd] in *; [|exact Hc].
  eapply R_trans; [exact Hc|apply Hk].
Qed.

Lemma preserves_try_except {A} (body : M A) (handler : PyException -> M A) :
  preserves R body -> (forall e, preserves R (handler e)) ->
  preserves R (try_except body handler).
Proof.
  intros Hb Hh w. unfold try_except. specialize (Hb w).
  destruct (body w) as [[a|e] w1]; cbn [snd] in *; [exact Hb|].
  eapply R_trans; [exact Hb|apply Hh].
Qed.

Lemma preserves_for_each {A} (l : list A) (body : A -> M unit) :
  (forall a, preserves R (body a)) -> preserves R (for_each l body).
Proof.
  intros Hb. induction l as [|a l IH]; [apply preserves_ret|].
  cbn [for_each]. apply preserves_bind; [apply Hb|intros _; exact IH].
Qed.

Lemma preserves_if {A} (b : bool) (c1 c2 : M A) :
  preserves R c1 -> preserves R c2 -> preserves R (if b then c1 else c2).
Proof. destruct b; auto. Qed.

End Preserves.

(** The protocol layer keeps whatever the manager's operations keep for
    the identity it serves, as long as the envelopes it sends itself are
    among those ([Q]) the relation allows. *)
Section ProtocolPreserves.

Variable R : World -> World -> Prop.
Variable Q : Message -> Prop.
Variable py_int : JValue -> Result Z.
Variable py_str : JValue -> string.
Variable user : User.

Hypothesis R_refl : forall w, R w w.
Hypothesis R_trans : forall w1 w2 w3, R w1 w2 -> R w2 w3 -> R w1 w3.
Hypothesis R_send :
  forall env message, Q message -> preserves R (send_personal_message env message (user_id user)).
Hypothesis R_subscribe_to_package :
  forall env p, preserves R (subscribe_to_package env (user_id user) p).
Hypothesis R_unsubscribe_from_package :
  forall env p, preserves R (unsubscribe_from_package env (user_id user) p).
Hypothesis R_subscribe_to_delivery :
  forall env d, preserves R (subscribe_to_delivery env (user_id user) d).
Hypothesis R_unsubscribe_from_delivery :
  forall env d, preserves R (unsubscribe_from_delivery env (user_id user) d).
Hypothesis R_connect : forall env ws, preserves R (connect env ws user).
Hypothesis R_disconnect : preserves R (disconnect (user_id user)).
Hypothesis Q_pong : Q pong_message.
Hypothesis Q_error : forall text, Q (error_message text).
Hypothesis Q_stats :
  role_value (user_role user) = "admin" -> forall stats, Q (stats_message stats).

Lemma preserves_entity_command field (action : Z -> Z -> M unit) message :
  (forall n, preserves R (action (user_id user) n)) ->
  preserves R (entity_command py_int field action user message).
Proof.
  intros Ha. unfold entity_command.
  apply preserves_if; [|apply preserves_ret; assumption].
  apply preserves_bind; [assumption|apply preserves_lift_result; assumption|exact Ha].
Qed.

Lemma preserves_handle env message :
  preserves R (handle_websocket_message py_int py_str env user message).
Proof.
  unfold handle_websocket_message.
  apply preserves_try_except; [assumption| |intros e; apply R_send, Q_error].
  cbv zeta.
  repeat (apply preserves_if;
          [first [apply R_send, Q_pong
                 |apply preserves_entity_command; intros n; auto]|]).
  apply preserves_if; [|apply R_send, Q_error].
  case_decide as Hadmin; [|apply R_send, Q_error].
  apply preserves_bind; [assumption|apply preserves_get_mgr; assumption|].
  intros m. apply R_send, Q_stats, Hadmin.
Qed.

Lemma preserves_auto_subscribe env packages :
  preserves R (auto_subscribe_user_packages env user packages).
Proof.
  unfold auto_subscribe_user_packages.
  apply preserves_try_except;
    [assumption| |intros e; apply preserves_ret; assumption].
  apply preserves_bind; [assumption|apply preserves_lift_result; assumption|].
  intros ids. apply preserves_for_each; auto.
Qed.

Lemma preserves_serve_one env received :
  preserves R (serve_one py_int py_str env user received).
Proof.
  unfold serve_one. apply preserves_try_except; [assumption| |].
  - destruct received as [e| |message].
    + apply preserves_raise; assumption.
    + apply preserves_bind; [assumption|apply R_send, Q_error|].
      intros _. apply preserves_ret; assumption.
    + apply preserves_bind; [assumption|apply preserves_handle|].
      intros _. apply preserves_ret; assumption.
  - intros e. destruct e; try apply preserves_ret; try assumption;
      (apply preserves_bind; [assumption|apply R_send, Q_error|];
       intros _; apply preserves_ret; assumption).
Qed.

Lemma preserves_serve script : preserves R (serve py_int py_str user script).
Proof.
  induction script as [|[env received] rest IH]; [apply preserves_ret; assumption|].
  cbn [serve]. apply preserves_bind; [assumption|apply preserves_serve_one|].
  intros go_on. destruct go_on; [exact IH|apply preserves_ret; assumption].
Qed.

Lemma preserves_endpoint env ws packages script :
  preserves R (websocket_endpoint py_int py_str env ws (Some user) packages script).
Proof.
  unfold websocket_endpoint. apply preserves_bind; [assumption| |].
  - apply preserves_try_except; [assumption| |].
    + apply preserves_bind; [assumption|apply R_connect|]. intros _.
      apply preserves_bind; [assumption|apply preserves_auto_subscribe|]. intros _.
      apply preserves_serve.
    + intros e. apply preserves_bind; [assumption|exact R_disconnect|].
      intros _. apply preserves_ret; assumption.
  - intros ended.
    destruct ended; try (apply preserves_ret; assumption);
      (apply preserves_bind; [assumption|exact R_disconnect|];
       intros _; apply preserves_ret; assumption).
Qed.

End ProtocolPreserves.

(** *** Only the caller is touched *)

Lemma only_touches_refl u m : only_touches u m m.
Proof. intros u' _. repeat split; auto. Qed.

Lemma only_touches_trans u m1 m2 m3 :
  only_touches u m1 m2 -> only_touches u m2 m3 -> only_touches u m1 m3.
Proof.
  intros H12 H23 u' Hne.
  destruct (H12 u' Hne) as (Ha & Hr & Hp & Hd).
  destruct (H23 u' Hne) as (Ha' & Hr' & Hp' & Hd').
  repeat split; try congruence; intros Hin.
  - apply Hr, Hr', Hin.
  - apply Hr', Hr, Hin.
Qed.

Lemma disconnect_state_only_touches u m : only_touches u m (disconnect_state u m).
Proof.
  intros u' Hne. split; [|split; [|split]].
  - rewrite active_disconnect_state. apply lookup_delete_ne. congruence.
  - intros role. rewrite roles_disconnect_state.
    destruct (active_connections m !! u); [|reflexivity].
    rewrite elem_of_difference, elem_of_singleton. tauto.
  - rewrite package_disconnect_state.
    destruct (active_connections m !! u); [|reflexivity].
    apply lookup_delete_ne. congruence.
  - rewrite delivery_disconnect_state. reflexivity.
Qed.

Lemma send_effect_only_touches env message u w :
  only_touches u (mgr w) (mgr (send_effect env message u w)).
Proof.
  destruct (send_effect_mgr env message u w) as [-> | ->].
  - apply only_touches_refl.
  - apply disconnect_state_only_touches.
Qed.

Lemma add_subscription_lookup_ne u ref subs u' :
  u' <> u -> add_subscription u ref subs !! u' = subs !! u'.
Proof. intros Hne. rewrite add_subscription_eq. apply lookup_insert_ne. congruence. Qed.

Lemma discard_subscription_lookup_ne u ref subs u' :
  u' <> u -> discard_subscription u ref subs !! u' = subs !! u'.
Proof.
  intros Hne. unfold discard_subscription.
  destruct (subs !! u); [|reflexivity]. apply lookup_insert_ne. congruence.
Qed.

Lemma registered_only_touches env ws user m :
  only_touches (user_id user) m (registered env ws user m).
Proof.
  intros u' Hne. split; [|split; [|split]].
  - rewrite registered_active. apply lookup_insert_ne. congruence.
  - intros role. rewrite registered_roles. unfold add_to_role.
    case_decide; [|reflexivity].
    rewrite elem_of_union, elem_of_singleton. tauto.
  - unfold registered. simpl.
    destruct (package_subscriptions m !! user_id user); [reflexivity|].
    simpl. apply lookup_insert_ne. congruence.
  - rewrite registered_delivery. reflexivity.
Qed.

Section Touching.

Variable u : Z.

Lemma touching_refl w : touching u w w.
Proof. apply only_touches_refl. Qed.

Lemma touching_trans w1 w2 w3 : touching u w1 w2 -> touching u w2 w3 -> touching u w1 w3.
Proof. apply only_touches_trans. Qed.

Lemma touching_send env message : preserves (touching u) (send_personal_message env message u).
Proof. intros w. rewrite send_personal_message_eq. apply send_effect_only_touches. Qed.

Lemma touching_disconnect : preserves (touching u) (disconnect u).
Proof. intros w. rewrite disconnect_eq. apply disconnect_state_only_touches. Qed.

Lemma touching_subscribe_to_package env p :
  preserves (touching u) (subscribe_to_package env u p).
Proof.
  intros w. rewrite subscribe_to_package_eq. cbn [snd].
  eapply only_touches_trans; [|apply send_effect_only_touches]. simpl.
  intros u' Hne. repeat split; auto. simpl. apply add_subscription_lookup_ne, Hne.
Qed.

Lemma touching_unsubscribe_from_package env p :
  preserves (touching u) (unsubscribe_from_package env u p).
Proof.
  intros w. rewrite unsubscribe_from_package_eq. cbn [snd].
  eapply only_touches_trans; [|apply send_effect_only_touches]. simpl.
  intros u' Hne. repeat split; auto. simpl. apply discard_subscription_lookup_ne, Hne.
Qed.

Lemma touching_subscribe_to_delivery env d :
  preserves (touching u) (subscribe_to_delivery env u d).
Proof.
  intros w. rewrite subscribe_to_delivery_eq. cbn [snd].
  eapply only_touches_trans; [|apply send_effect_only_touches]. simpl.
  intros u' Hne. repeat split; auto. simpl. apply add_subscription_lookup_ne, Hne.
Qed.

Lemma touching_unsubscribe_from_delivery env d :
  preserves (touching u) (unsubscribe_from_delivery env u d).
Proof.
  intros w. rewrite unsubscribe_from_delivery_eq. cbn [snd].
  eapply only_touches_trans; [|apply send_effect_only_touches]. simpl.
  intros u' Hne. repeat split; auto. simpl. apply discard_subscription_lookup_ne, Hne.
Qed.

End Touching.

Lemma touching_connect env ws user :
  preserves (touching (user_id user)) (connect env ws user).
Proof.
  intros w. rewrite connect_eq.
  destruct (accept_outcome env ws); cbn [snd]; [apply only_touches_refl|].
  eapply only_touches_trans; [|apply send_effect_only_touches]. simpl.
  apply registered_only_touches.
Qed.

Lemma handle_returns py_int py_str env user message w :
  fst (handle_websocket_message py_int py_str env user message w) = Returned tt.
Proof.
  unfold handle_websocket_message, try_except.
  match goal with |- context [match ?body w with _ => _ end] => destruct (body w) as [[[]|e] w1] end.
  - reflexivity.
  - rewrite send_personal_message_eq. reflexivity.
Qed.

(** X16: a client's command only ever acts on the client itself.
    Whatever message [handle_websocket_message] is given for a user, and
    whatever [int] and the transports do, it returns normally, and every
    other identity keeps its socket, its role memberships and its
    subscriptions in both namespaces. *)
Theorem handle_touches_only_caller (py_int : JValue -> Result Z) (py_str : JValue -> string)
    (env : Env) (user : User) (message : Message) (w : World) :
  fst (handle_websocket_message py_int py_str env user message w) = Returned tt /\
  only_touches (user_id user) (mgr w)
    (mgr (snd (handle_websocket_message py_int py_str env user message w))).
Proof.
  split; [apply handle_returns|].
  apply (preserves_handle (touching (user_id user)) (fun _ => True) py_int py_str user
           (touching_refl _) (touching_trans _)); auto.
  - intros env0 message0 _. apply touching_send.
  - intros. apply touching_subscribe_to_package.
  - intros. apply touching_unsubscribe_from_package.
  - intros. apply touching_subscribe_to_delivery.
  - intros. apply touching_unsubscribe_from_delivery.
Qed.

(** X17: a [subscribe_*] or [unsubscribe_*] command whose id field is
    missing, [null], [0], [0.0] or empty is dropped without a word: no
    subscription changes, no confirmation and no error envelope is sent. *)
Theorem falsy_entity_id_ignored (py_int : JValue -> Result Z) (py_str : JValue -> string)
    (env : Env) (user : User) (message : Message) (w : World) (command field : string) :
  (command, field) ∈ entity_commands ->
  message_get "type" message = JStr command ->
  truthy (message_get field message) = false ->
  handle_websocket_message py_int py_str env user message w = (Returned tt, w).
Proof.
  intros Hcmd Htype Hfalsy. unfold entity_commands in Hcmd.
  repeat (apply elem_of_cons in Hcmd as [Hcmd|Hcmd];
          [injection Hcmd as -> ->;
           unfold handle_websocket_message, try_except, entity_command;
           rewrite Htype; cbn [is_str String.eqb Ascii.eqb Bool.eqb];
           rewrite Hfalsy; reflexivity|]).
  inversion Hcmd.
Qed.

Lemma falsy_entity_id_ignored_witness :
  handle_websocket_message int_of_int_only str_of_str_only healthy courier_A
    [("type", JStr "subscribe_package"); ("package_id", JInt 0)] (start only_A_connected)
  = (Returned tt, start only_A_connected).
Proof.
  apply (falsy_entity_id_ignored int_of_int_only str_of_str_only healthy courier_A
           [("type", JStr "subscribe_package"); ("package_id", JInt 0)]
           (start only_A_connected) "subscribe_package" "package_id").
  - apply list_elem_of_here.
  - reflexivity.
  - reflexivity.
Defined.

(** X18: a [subscribe_*] or [unsubscribe_*] command whose id [int]
    refuses (a string that is no number, say) changes no subscription;
    the client is sent the error envelope ["Message handling failed"],
    and the call returns normally. *)
Theorem bad_entity_id_reported (py_int : JValue -> Result Z) (py_str : JValue -> string)
    (env : Env) (user : User) (message : Message) (w : World) (command field : string)
    (e : PyException) :
  (command, field) ∈ entity_commands ->
  message_get "type" message = JStr command ->
  truthy (message_get field message) = true ->
  py_int (message_get field message) = Raised e ->
  handle_websocket_message py_int py_str env user message w =
  send_personal_message env (error_message "Message handling failed") (user_id user) w.
Proof.
  intros Hcmd Htype Htruthy Hint. unfold entity_commands in Hcmd.
  repeat (apply elem_of_cons in Hcmd as [Hcmd|Hcmd];
          [injection Hcmd as -> ->;
           unfold handle_websocket_message, try_except, entity_command, bind, lift_result;
           rewrite Htype; cbn [is_str String.eqb Ascii.eqb Bool.eqb];
           rewrite Htruthy, Hint; reflexivity|]).
  inversion Hcmd.
Qed.

Lemma bad_entity_id_reported_witness :
  let message := [("type", JStr "subscribe_delivery"); ("delivery_id", JStr "seven")] in
  mgr_after (handle_websocket_message int_of_int_only str_of_str_only healthy courier_A message)
    only_A_connected = only_A_connected /\
  deliveries_to 1
    (trace_of (handle_websocket_message int_of_int_only str_of_str_only healthy courier_A message)
       only_A_connected) = [error_message "Message handling failed"].
Proof.
  intros message. unfold mgr_after, trace_of.
  rewrite (bad_entity_id_reported int_of_int_only str_of_str_only healthy courier_A message
             (start only_A_connected) "subscribe_delivery" "delivery_id" RuntimeError).
  - split; vm_compute; reflexivity.
  - apply list_elem_of_further, list_elem_of_further, list_elem_of_here.
  - reflexivity.
  - reflexivity.
  - reflexivity.
Defined.

(** *** What the protocol layer sends *)

Section Delivering.

Variable P : Message -> Prop.

Lemma delivering_refl w : delivering P w w.
Proof. intros H. exact H. Qed.

Lemma delivering_trans w1 w2 w3 :
  delivering P w1 w2 -> delivering P w2 w3 -> delivering P w1 w3.
Proof. intros H12 H23 H1. apply H23, H12, H1. Qed.

Lemma delivering_send env message u :
  P message -> preserves (delivering P) (send_personal_message env message u).
Proof.
  intros HP w Hw. rewrite send_personal_message_eq.
  apply all_deliveries_send_effect; assumption.
Qed.

Lemma delivering_disconnect u : preserves (delivering P) (disconnect u).
Proof. intros w Hw. rewrite disconnect_eq. exact Hw. Qed.

Lemma delivering_subscribe_to_package env u p :
  P (package_subscribed p) -> preserves (delivering P) (subscribe_to_package env u p).
Proof.
  intros HP w Hw. rewrite subscribe_to_package_eq.
  apply all_deliveries_send_effect; assumption.
Qed.

Lemma delivering_unsubscribe_from_package env u p :
  P (package_unsubscribed p) -> preserves (delivering P) (unsubscribe_from_package env u p).
Proof.
  intros HP w Hw. rewrite unsubscribe_from_package_eq.
  apply all_deliveries_send_effect; assumption.
Qed.

Lemma delivering_subscribe_to_delivery env u d :
  P (delivery_subscribed d) -> preserves (delivering P) (subscribe_to_delivery env u d).
Proof.
  intros HP w Hw. rewrite subscribe_to_delivery_eq.
  apply all_deliveries_send_effect; assumption.
Qed.

Lemma delivering_unsubscribe_from_delivery env u d :
  P (delivery_unsubscribed d) -> preserves (delivering P) (unsubscribe_from_delivery env u d).
Proof.
  intros HP w Hw. rewrite unsubscribe_from_delivery_eq.
  apply all_deliveries_send_effect; assumption.
Qed.

End Delivering.

Lemma role_value_admin role : role_value role = "admin" -> role = ADMIN.
Proof. destruct role; [reflexivity|discriminate..]. Qed.

(** X19: every envelope [handle_websocket_message] delivers has one of
    the types [pong], [package_subscribed], [package_unsubscribed],
    [delivery_subscribed], [delivery_unsubscribed], [stats] and [error],
    and a [stats] envelope is delivered only when the user's role is
    admin: no message, whatever its content, gets the statistics to
    anybody else. *)
Theorem handle_replies (py_int : JValue -> Result Z) (py_str : JValue -> string)
    (env : Env) (user : User) (message : Message) (m : ConnectionManager) :
  all_deliveries
    (fun reply => exists t, envelope_type reply = Some t /\ t ∈ reply_types /\
                            (t = "stats" -> user_role user = ADMIN))
    (trace_of (handle_websocket_message py_int py_str env user message) m).
Proof.
  set (P := fun reply : Message =>
              exists t, envelope_type reply = Some t /\ t ∈ reply_types /\
                        (t = "stats" -> user_role user = ADMIN)).
  assert (Hin : forall t, t ∈ reply_types -> t <> "stats" ->
                          forall reply, envelope_type reply = Some t -> P reply).
  { intros t Ht Hne reply Hreply. exists t. repeat split; [exact Hreply|exact Ht|].
    intros Heq. contradiction. }
  unfold trace_of.
  apply (preserves_handle (delivering P) P py_int py_str user
           (delivering_refl P) (delivering_trans P)).
  - intros env0 message0 HP. apply delivering_send, HP.
  - intros env0 p. apply delivering_subscribe_to_package.
    apply (Hin "package_subscribed"); [set_solver|discriminate|reflexivity].
  - intros env0 p. apply delivering_unsubscribe_from_package.
    apply (Hin "package_unsubscribed"); [set_solver|discriminate|reflexivity].
  - intros env0 d. apply delivering_subscribe_to_delivery.
    apply (Hin "delivery_subscribed"); [set_solver|discriminate|reflexivity].
  - intros env0 d. apply delivering_unsubscribe_from_delivery.
    apply (Hin "delivery_unsubscribed"); [set_solver|discriminate|reflexivity].
  - apply (Hin "pong"); [set_solver|discriminate|reflexivity].
  - intros text. apply (Hin "error"); [set_solver|discriminate|reflexivity].
  - intros Hadmin stats. exists "stats". repeat split; [set_solver|].
    intros _. apply role_value_admin, Hadmin.
  - intros u x Hx. inversion Hx.
Qed.

(** *** A whole session *)

Lemma bind_returned {A B} (c : M A) (k : A -> M B) (w : World) (a : A) :
  fst (c w) = Returned a -> bind c k w = k a (snd (c w)).
Proof. unfold bind. destruct (c w) as [r w1]. simpl. intros ->. reflexivity. Qed.

Lemma serve_one_result py_int py_str env user received w :
  fst (serve_one py_int py_str env user received w) =
  Returned (match received with
            | ReceiveRaises WebSocketDisconnect => false
            | _ => true
            end).
Proof.
  unfold serve_one, try_except.
  destruct received as [e| |message].
  - unfold raise. destruct e; try reflexivity;
      (rewrite (bind_returned _ _ _ tt) by (rewrite send_personal_message_eq; reflexivity);
       reflexivity).
  - rewrite (bind_returned _ _ _ tt) by (rewrite send_personal_message_eq; reflexivity).
    reflexivity.
  - rewrite (bind_returned _ _ _ tt) by apply handle_returns. reflexivity.
Qed.

Lemma serve_result py_int py_str user script : forall w,
  fst (serve py_int py_str user script w) =
  Returned (if has_disconnect script then Disconnected else StillReceiving).
Proof.
  induction script as [|[env received] rest IH]; intros w; [reflexivity|].
  cbn [serve]. rewrite (bind_returned _ _ _ _ (serve_one_result _ _ _ _ _ _)).
  destruct received as [[]| |]; cbn [has_disconnect]; try apply IH. reflexivity.
Qed.

Lemma auto_subscribe_returns env user packages w :
  fst (auto_subscribe_user_packages env user packages w) = Returned tt.
Proof.
  unfold auto_subscribe_user_packages, try_except.
  match goal with |- context [match ?body w with _ => _ end] => destruct (body w) as [[[]|e] w1] end;
    reflexivity.
Qed.

(** X20: how a session ends.  A rejected token ends it at once with the
    world untouched.  Otherwise the endpoint is left exactly when the
    handshake fails or a receive raises [WebSocketDisconnect] (errors in
    between, bad JSON included, keep the loop going), and whenever it is
    left the user has no entry in the live map. *)
Theorem session_cleanup (py_int : JValue -> Result Z) (py_str : JValue -> string)
    (env : Env) (ws : WebSocket) (user : User) (packages : Result (list Z))
    (script : list (Env * Received)) (w : World) :
  websocket_endpoint py_int py_str env ws None packages script w = (Returned Rejected, w) /\
  let r := websocket_endpoint py_int py_str env ws (Some user) packages script w in
  fst r = Returned (match accept_outcome env ws with
                    | Some _ => ConnectFailed
                    | None => if has_disconnect script then Disconnected else StillReceiving
                    end) /\
  (fst r <> Returned StillReceiving ->
   active_connections (mgr (snd r)) !! user_id user = None).
Proof.
  split; [reflexivity|]. cbv zeta. unfold websocket_endpoint.
  set (body := bind (connect env ws user)
                 (fun _ => bind (auto_subscribe_user_packages env user packages)
                             (fun _ => serve py_int py_str user script))).
  assert (Hbody : fst (body w) =
                  match accept_outcome env ws with
                  | Some e => Raised e
                  | None => Returned (if has_disconnect script
                                      then Disconnected else StillReceiving)
                  end).
  { unfold body, bind at 1. rewrite connect_eq.
    destruct (accept_outcome env ws); [reflexivity|].
    rewrite (bind_returned _ _ _ tt (auto_subscribe_returns _ _ _ _)).
    apply serve_result. }
  destruct (body w) as [r w1] eqn:Hbw. cbn [fst] in Hbody. subst r.
  unfold bind, try_except. rewrite Hbw.
  destruct (accept_outcome env ws) as [e|].
  - cbn -[disconnect_state].
    split; [reflexivity|]. intros _.
    rewrite active_disconnect_state. apply lookup_delete_eq.
  - destruct (has_disconnect script).
    + cbn -[disconnect_state].
      split; [reflexivity|]. intros _.
      rewrite active_disconnect_state. apply lookup_delete_eq.
    + cbn [ret fst]. split; [reflexivity|]. intros Hne. contradiction.
Qed.

Lemma session_cleanup_witness :
  let r := websocket_endpoint int_of_int_only str_of_str_only healthy (Socket 1)
             (Some courier_A) (Returned [3])
             [(healthy, JsonObject [("type", JStr "ping")]);
              (healthy, InvalidJson);
              (healthy, ReceiveRaises WebSocketDisconnect)] (start init) in
  fst r = Returned Disconnected /\
  active_connections (mgr (snd r)) !! 1 = None.
Proof.
  intros r.
  destruct (proj2 (session_cleanup int_of_int_only str_of_str_only healthy (Socket 1)
                     courier_A (Returned [3])
                     [(healthy, JsonObject [("type", JStr "ping")]);
                      (healthy, InvalidJson);
                      (healthy, ReceiveRaises WebSocketDisconnect)] (start init)))
    as [Hend Hclean].
  split; [exact Hend|]. apply Hclean. intros Heq. rewrite Hend in Heq.
  simpl in Heq. discriminate Heq.
Defined.

(** X21: a whole session, from the handshake to the clean-up, acts on
    its own user only: whatever the client sends and whatever the
    transports do, every other identity keeps its socket, its role
    memberships and its subscriptions. *)
Theorem session_touches_only_its_user (py_int : JValue -> Result Z)
    (py_str : JValue -> string) (env : Env) (ws : WebSocket) (user : User)
    (packages : Result (list Z)) (script : list (Env * Received)) (w : World) :
  only_touches (user_id user) (mgr w)
    (mgr (snd (websocket_endpoint py_int py_str env ws (Some user) packages script w))).
Proof.
  apply (preserves_endpoint (touching (user_id user)) (fun _ => True) py_int py_str user
           (touching_refl _) (touching_trans _)); auto.
  - intros env0 message0 _. apply touching_send.
  - intros. apply touching_subscribe_to_package.
  - intros. apply touching_unsubscribe_from_package.
  - intros. apply touching_subscribe_to_delivery.
  - intros. apply touching_unsubscribe_from_delivery.
  - intros. apply touching_connect.
  - apply touching_disconnect.
Qed.

(** ** Delivery service *)











Lemma assign_courier_rules_example :
  let sender_as_target := assign_courier committing 7 2 courier_A sample_db in
  let by_sender := assign_courier committing 7 1 sender_B sample_db in
  fst sender_as_target = Returned None /\ fst by_sender = Returned None.
Proof. split; vm_compute; reflexivity. Qed.











(** ** Subscriptions made on connecting *)

Lemma subscribe_to_package_accepted env u ws p w :
  accepts_all env ->
  active_connections (mgr w) !! u = Some ws ->
  subscribe_to_package env u p w =
  (Returned tt,
   {| mgr := set_package_subscriptions
               (add_subscription u p (package_subscriptions (mgr w))) (mgr w);
      trace := trace w ++ [Sent u ws (package_subscribed p)] |}).
Proof.
  intros Hacc Hu. rewrite subscribe_to_package_eq. f_equal.
  unfold send_effect. cbn [mgr trace]. cbn [set_package_subscriptions active_connections].
  rewrite Hu, Hacc. reflexivity.
Qed.

Lemma for_each_subscribe_accepted env u ws ids : forall w,
  accepts_all env ->
  active_connections (mgr w) !! u = Some ws ->
  let r := for_each ids (subscribe_to_package env u) w in
  fst r = Returned tt /\
  active_connections (mgr (snd r)) = active_connections (mgr w) /\
  connections_by_role (mgr (snd r)) = connections_by_role (mgr w) /\
  delivery_subscriptions (mgr (snd r)) = delivery_subscriptions (mgr w) /\
  refs_of (package_subscriptions (mgr (snd r))) u
    = refs_of (package_subscriptions (mgr w)) u ∪ list_to_set ids /\
  deliveries_to u (trace (snd r))
    = (deliveries_to u (trace w) ++ (package_subscribed <$> ids))%list.
Proof.
  induction ids as [|p ids IH]; intros w Hacc Hu; cbv zeta.
  - cbn. rewrite app_nil_r. repeat split.
    apply leibniz_equiv. intros x. rewrite elem_of_union, elem_of_empty. tauto.
  - cbn [for_each]. unfold bind.
    rewrite (subscribe_to_package_accepted env u ws p w Hacc Hu).
    match goal with |- context [for_each ids _ ?w1] =>
      destruct (IH w1 Hacc Hu) as (Hr & Ha & Hro & Hd & Hp & Ht)
    end.
    rewrite Hr, Ha, Hro, Hd, Hp, Ht. cbn [mgr trace].
    repeat split.
    + cbn [set_package_subscriptions package_subscriptions].
      rewrite refs_of_add_subscription, decide_True by reflexivity.
      apply leibniz_equiv. intros x. cbn [list_to_set foldr].
      rewrite !elem_of_union. tauto.
    + rewrite deliveries_to_app. cbn [deliveries_to].
      rewrite decide_True by reflexivity. cbn [fmap list_fmap].
      rewrite <- app_assoc. reflexivity.
Qed.

(** X25: the subscriptions made on connecting.  For a connected user
    whose socket takes the sends, [auto_subscribe_user_packages] adds
    every package id its query returned to the user's package
    subscriptions, keeping what was there, and sends one
    [package_subscribed] confirmation per id, in the order of the query
    result, repeated ids included; nothing else about the manager
    changes.  If the query raises, nothing is subscribed or sent and the
    call returns normally. *)
Theorem auto_subscribe_effect (env : Env) (user : User) (m : ConnectionManager)
    (ws : WebSocket) :
  (forall ids,
     accepts_all env ->
     active_connections m !! user_id user = Some ws ->
     let m' := mgr_after (auto_subscribe_user_packages env user (Returned ids)) m in
     result_of (auto_subscribe_user_packages env user (Returned ids)) m = Returned tt /\
     active_connections m' = active_connections m /\
     connections_by_role m' = connections_by_role m /\
     delivery_subscriptions m' = delivery_subscriptions m /\
     refs_of (package_subscriptions m') (user_id user)
       = refs_of (package_subscriptions m) (user_id user) ∪ list_to_set ids /\
     deliveries_to (user_id user)
       (trace_of (auto_subscribe_user_packages env user (Returned ids)) m)
       = package_subscribed <$> ids) /\
  (forall e, auto_subscribe_user_packages env user (Raised e) (start m)
             = (Returned tt, start m)).
Proof.
  split; [|reflexivity].
  intros ids Hacc Hu. cbv zeta.
  unfold result_of, mgr_after, trace_of, auto_subscribe_user_packages, try_except.
  unfold bind. cbn [lift_result ret].
  destruct (for_each_subscribe_accepted env (user_id user) ws ids (start m) Hacc Hu)
    as (Hr & Ha & Hro & Hd & Hp & Ht).
  destruct (for_each ids (subscribe_to_package env (user_id user)) (start m)) as [r w1].
  cbn [fst snd] in *. subst r. cbn [fst snd]. auto 10.
Qed.

Lemma auto_subscribe_effect_witness :
  deliveries_to 1
    (trace_of (auto_subscribe_user_packages healthy courier_A (Returned [3; 4; 3]))
       only_A_connected)
  = [package_subscribed 3; package_subscribed 4; package_subscribed 3].
Proof.
  exact (proj2 (proj2 (proj2 (proj2 (proj2
           (proj1 (auto_subscribe_effect healthy courier_A only_A_connected (Socket 1))
              [3; 4; 3] healthy_accepts_all eq_refl)))))).
Defined.
